(** * The [dev] command line tool of oran-o2ims: a shallow embedding

    The tool is a thin wrapper that spawns external programs.  The embedding
    keeps the Python code's shape: every function of [dev/command.py],
    [dev/setup.py], [dev/build.py], [dev/generate.py], [dev/push.py],
    [dev/deploy.py], [dev/install.py] and [dev/test.py] is a computation in a
    state-and-exception monad whose state is the chronological list of
    observable effects (processes spawned, files written, log records) plus
    the memo table of [go_env].  Everything the operating system decides (what
    is on the search path, how a spawned process ends, the mode bits of a
    file) is read from an [environ] record of oracles, each of which may
    depend on the effects performed so far.

    Text is modelled by [string] (ASCII text); the platform is POSIX, so
    [os.pathsep] is a colon and [pathlib.Path] is [PurePosixPath]. *)

From Stdlib Require Import ZArith Ascii DecimalString.
From stdpp Require Import base option list gmap strings.

Open Scope Z_scope.

(** ** Python string primitives *)

Module Str.

Fixpoint split_go (sep : ascii) (cur : string) (s : string) : list string :=
  match s with
  | EmptyString => [String.rev cur]
  | String c s' =>
      if Ascii.eqb c sep then String.rev cur :: split_go sep EmptyString s'
      else split_go sep (String c cur) s'
  end.

(** [s.split(sep)] for a one-character separator: never the empty list. *)
Definition split (sep : ascii) (s : string) : list string :=
  split_go sep EmptyString s.

(** [sep.join(l)]. *)
Fixpoint join (sep : string) (l : list string) : string :=
  match l with
  | [] => EmptyString
  | [x] => x
  | x :: l' => x +:+ sep +:+ join sep l'
  end.

(** Characters [str.strip()] removes, within ASCII. *)
Definition is_space (c : ascii) : bool :=
  let n := nat_of_ascii c in
  ((9 <=? n)%nat && (n <=? 13)%nat) || ((28 <=? n)%nat && (n <=? 32)%nat).

Fixpoint lstrip (s : string) : string :=
  match s with
  | String c s' => if is_space c then lstrip s' else s
  | EmptyString => EmptyString
  end.

(** [s.strip()], on ASCII text: Python also removes the white space
    characters beyond ASCII (U+0085, U+00A0 and others). *)
Definition strip (s : string) : string :=
  String.rev (lstrip (String.rev (lstrip s))).

Definition is_digit (c : ascii) : bool :=
  let n := nat_of_ascii c in (48 <=? n)%nat && (n <=? 57)%nat.

Fixpoint all (p : ascii -> bool) (s : string) : bool :=
  match s with
  | EmptyString => true
  | String c s' => p c && all p s'
  end.

Fixpoint replace_char (c : ascii) (by_ : string) (s : string) : string :=
  match s with
  | EmptyString => EmptyString
  | String d s' =>
      (if Ascii.eqb d c then by_ else String d EmptyString)
        +:+ replace_char c by_ s'
  end.

(** [str(n)] for an integer. *)
Definition of_Z (n : Z) : string := NilZero.string_of_int (Z.to_int n).

(** [str(b).lower()] for a boolean. *)
Definition lower_of_bool (b : bool) : string :=
  if b then "true" else "false".

Definition squote : string := String (ascii_of_nat 39) EmptyString.
Definition dquote : string := String (ascii_of_nat 34) EmptyString.
Definition newline : ascii := ascii_of_nat 10.

End Str.

(** ** [shlex.quote] and the version-segment pattern *)

(** The characters [shlex.quote] leaves alone: [[\w@%+=:,./-]] with
    [re.ASCII]. *)
Definition shlex_safe (c : ascii) : bool :=
  let n := nat_of_ascii c in
  Str.is_digit c
  || ((65 <=? n)%nat && (n <=? 90)%nat)
  || ((97 <=? n)%nat && (n <=? 122)%nat)
  || bool_decide (c ∈ ["_"; "@"; "%"; "+"; "="; ":"; ","; "."; "/"; "-"]%char).

Definition shlex_quote (s : string) : string :=
  match s with
  | EmptyString => Str.squote +:+ Str.squote
  | _ =>
      if Str.all shlex_safe s then s
      else Str.squote
             +:+ Str.replace_char (ascii_of_nat 39)
                   (Str.squote +:+ Str.dquote +:+ Str.squote +:+ Str.dquote
                      +:+ Str.squote) s
             +:+ Str.squote
  end.

(** [\d+$] from the current position: one or more digits, then the end of the
    string or a single newline that ends it.  The digits are the ASCII ones:
    on a [str] the pattern also takes the other Unicode decimal digits, which
    ASCII text does not contain. *)
Fixpoint digits_then_end (seen : bool) (s : string) : bool :=
  match s with
  | EmptyString => seen
  | String c s' =>
      if Str.is_digit c then digits_then_end true s'
      else seen && Ascii.eqb c Str.newline && bool_decide (s' = EmptyString)
  end.

(** [re.match(r"^v\d+$", name)] is not [None]. *)
Definition is_version_segment (name : string) : bool :=
  match name with
  | String "v" s => digits_then_end false s
  | _ => false
  end.

(** ** [pathlib.Path] on POSIX *)

Module Path.

(** A pure path after parsing: its root (empty, one slash or two slashes)
    and its components; empty components and single dots are dropped at
    parsing, double dots are kept. *)
Record t := mk { root : string; parts : list string }.

#[global] Instance eq_dec : EqDecision t.
Proof. solve_decision. Defined.

#[global] Instance countable : Countable t.
Proof.
  apply (inj_countable' (fun p => (root p, parts p))
                        (fun x => mk x.1 x.2)).
  by intros [].
Defined.

Definition split_root (s : string) : string * string :=
  match s with
  | String "/" (String "/" (String "/" r)) => ("/", r)
  | String "/" (String "/" r) => ("//", r)
  | String "/" r => ("/", r)
  | _ => (EmptyString, s)
  end.

Definition keep_part (x : string) : bool :=
  negb (bool_decide (x = EmptyString)) && negb (bool_decide (x = ".")).

(** [pathlib.Path(s)]. *)
Definition of_string (s : string) : t :=
  let '(r, rel) := split_root s in
  mk r (filter (fun x => Is_true (keep_part x)) (Str.split "/" rel)).

(** [str(p)]. *)
Definition to_string (p : t) : string :=
  match root p, parts p with
  | EmptyString, [] => "."
  | r, ps => r +:+ Str.join "/" ps
  end.

(** [p.parent]. *)
Definition parent (p : t) : t :=
  match parts p with
  | [] => p
  | ps => mk (root p) (removelast ps)
  end.

(** [p / key]: a rooted key replaces the path, a relative one extends it. *)
Definition div (p : t) (key : string) : t :=
  let q := of_string key in
  if bool_decide (root q = EmptyString)
  then mk (root p) (parts p ++ parts q)
  else q.

End Path.

Infix "//" := Path.div (at level 40, left associativity).

(** ** Exceptions, observable effects and the environment *)

Inductive exn :=
| Exception (msg : string)                        (* [raise Exception(msg)] *)
| IndexError                                      (* list index out of range *)
| AttributeError                                  (* method call on [None] *)
| ValueError                                      (* [shlex.split] on unbalanced quotes *)
| CalledProcessError (returncode : Z) (args : list string)
| OSError (what : string).                        (* any failure reported by the OS *)

Inductive level := DEBUG | INFO.

(** Where a child's standard stream goes: the parent's own stream, or the
    anonymous temporary file of the enclosing [with] block. *)
Inductive stream := Inherit | TempFile.

(** The keyword arguments the callers of [command.run] pass through to
    [subprocess.run]. *)
Record kwargs := { cwd : option string; stdin : stream; stdout : stream }.

Definition no_kwargs : kwargs :=
  {| cwd := None; stdin := Inherit; stdout := Inherit |}.

Inductive event :=
| Spawn (args : list string) (kw : kwargs) (capture_output : bool)
| Log (lvl : level) (msg : string)
| Mkdtemp (dir : string)
| WriteFile (file content : string)
| Rmtree (dir : string)
| Chmod (file : string) (mode : Z)
| OpenTemp
| SeekTemp
| CloseTemp.

(** How an attempt to spawn a process ends: the child ran and exited, or the
    operating system refused to start it and [subprocess.run] raised. *)
Inductive proc_result :=
| Exited (returncode : Z) (stdout_text : string)
| NotStarted (e : exn).

(** What the program reads from outside.  Every oracle but [getenv] and
    [module_file] sees the effects performed so far.  Creating the temporary
    directory, writing the digest file, removing the directory and changing
    mode bits are taken to succeed. *)
Record environ := {
  getenv : string -> option string;                       (* [os.getenv] *)
  which : list event -> string -> option string;          (* [shutil.which] *)
  subprocess : list event -> list string -> kwargs -> bool -> proc_result;
  mkdtemp : list event -> string;                         (* [tempfile.mkdtemp] *)
  st_mode : list event -> string -> option Z;             (* [os.stat(f).st_mode] *)
  module_file : string                                    (* [__file__] of setup.py *)
}.

(** The constants of [dev/versions.py], which determine URLs only. *)
Record versions := {
  MOCKGEN : string;
  GOLANGCI_LINT : string;
  OPM : string;
  OPERATOR_SDK : string;
  KUSTOMIZE : string;
  CONTROLLER_GEN : string;
  SPECTRAL : string
}.

(** ** The monad *)

Record state := {
  trace : list event;
  go_env_cache : gmap string string     (* the memo table of [functools.cache] *)
}.

Definition initial : state := {| trace := []; go_env_cache := ∅ |}.

Inductive result (A : Type) :=
| Ok (a : A)
| Raise (e : exn).
Arguments Ok {A} a.
Arguments Raise {A} e.

Definition M (A : Type) : Type := state -> result A * state.

#[global] Instance M_ret : MRet M := fun A a st => (Ok a, st).

#[global] Instance M_bind : MBind M := fun A B f m st =>
  match m st with
  | (Ok a, st') => f a st'
  | (Raise e, st') => (Raise e, st')
  end.

Definition raise {A} (e : exn) : M A := fun st => (Raise e, st).

Definition emit (e : event) : M unit := fun st =>
  (Ok tt, {| trace := trace st ++ [e]; go_env_cache := go_env_cache st |}).

Definition get_trace : M (list event) := fun st => (Ok (trace st), st).

Definition cache_lookup (var : string) : M (option string) := fun st =>
  (Ok (go_env_cache st !! var), st).

Definition cache_store (var value : string) : M unit := fun st =>
  (Ok tt, {| trace := trace st; go_env_cache := <[var:=value]> (go_env_cache st) |}).

(** [try: body finally: cleanup]. *)
Definition finally {A} (body : M A) (cleanup : M unit) : M A := fun st =>
  let '(r, st1) := body st in
  match cleanup st1 with
  | (Ok _, st2) => (r, st2)
  | (Raise e, st2) => (Raise e, st2)
  end.

Definition logging (lvl : level) (msg : string) : M unit := emit (Log lvl msg).

(** Exit status of the interpreter: [cli()] ends through click's
    [sys.exit(0)] when the command returns, and an exception that reaches the
    top level ends the process with status 1. *)
Definition exit_status {A} (r : result A) : Z :=
  match r with
  | Ok _ => 0
  | Raise _ => 1
  end.

(** The argument lists handed to [subprocess.run], oldest first. *)
Definition spawned (tr : list event) : list (list string) :=
  omap (fun e => match e with Spawn args _ _ => Some args | _ => None end) tr.

Section Dev.

Context (env : environ) (V : versions).

(** *** dev/command.py *)

(** [subprocess.run(args=args, check=check, capture_output=..., **kw)]. *)
Definition subprocess_run (args : list string) (kw : kwargs)
    (check capture_output : bool) : M (Z * string) :=
  tr ← get_trace;
  emit (Spawn args kw capture_output);;
  match subprocess env tr args kw capture_output with
  | NotStarted e => raise e
  | Exited code out =>
      if check && negb (code =? 0)
      then raise (CalledProcessError code args)
      else mret (code, out)
  end.

(** [command.run]: [check] is not passed, so it has its default [False]. *)
Definition run (args : list string) (kw : kwargs) : M unit :=
  let cmd := Str.join " " (shlex_quote <$> args) in
  logging DEBUG ("Running command '" +:+ cmd +:+ "'");;
  '(returncode, _) ← subprocess_run args kw false false;
  logging DEBUG ("Exit code of '" +:+ cmd +:+ "' is " +:+ Str.of_Z returncode).

(** [command.eval]. *)
Definition eval (args : list string) : M (Z * string) :=
  let cmd := Str.join " " (shlex_quote <$> args) in
  logging DEBUG ("Evaluating command '" +:+ cmd +:+ "'");;
  '(code, out) ← subprocess_run args no_kwargs false true;
  let output := Str.strip out in
  logging DEBUG ("Exit code of '" +:+ cmd +:+ "' is " +:+ Str.of_Z code);;
  logging DEBUG ("Output of '" +:+ cmd +:+ "' is '" +:+ output +:+ "'");;
  mret (code, output).

(** *** dev/setup.py *)

(** [go_env], memoised by [functools.cache]: a call that raises stores
    nothing. *)
Definition go_env (var : string) : M string :=
  cached ← cache_lookup var;
  match cached with
  | Some output => mret output
  | None =>
      '(code, output) ← eval ["go"; "env"; var];
      if negb (code =? 0)
      then raise (Exception ("Failed to get Go environment variable '"
                               +:+ var +:+ "'"))
      else cache_store var output;; mret output
  end.

(** A value tested with [in] against the set of search-path directories:
    [select_bin_directory] tests both [Path] objects and a plain [str]. *)
Inductive candidate :=
| AsPath (p : Path.t)
| AsStr (s : string).

(** [c in path] for a set of [Path] objects: a [str] equals no [Path]. *)
Definition member (c : candidate) (path : gset Path.t) : bool :=
  match c with
  | AsPath p => bool_decide (p ∈ path)
  | AsStr _ => false
  end.

Definition select_bin_directory : M string :=
  match getenv env "PATH" with
  | None => raise AttributeError
  | Some path =>
      let path : gset Path.t :=
        list_to_set (Path.of_string <$> Str.split ":" path) in
      let project := Path.parent (Path.parent (Path.of_string (module_file env))) in
      let bin := Path.parent project // ".local" // "bin" in
      if member (AsPath bin) path then mret (Path.to_string bin) else
      let bin := project // "bin" in
      if member (AsPath bin) path then mret (Path.to_string bin) else
      bin ← go_env "GOBIN";
      if member (AsStr bin) path then mret bin else
      root ← go_env "GOROOT";
      let root := Path.of_string root in
      let bin := root // "bin" in
      if member (AsPath bin) path then mret (Path.to_string bin) else
      raise (Exception "Failed to select a suitable binaries directory")
  end.

(** [range(start, stop, -1)]. *)
Definition range_down (start stop : nat) : list nat :=
  reverse (seq (S stop) (start - stop)).

(** The name of the binary a Go package path installs: [segments[-1]], or
    [segments[-2]] when the last segment is a major-version suffix. *)
Definition binary_name (segments : list string) : result string :=
  match reverse segments with
  | [] => Raise IndexError
  | name :: before =>
      if is_version_segment name then
        match before with
        | [] => Raise IndexError
        | name :: _ => Ok name
        end
      else Ok name
  end.

(** The [for] loop of [go_install]: [version] is rebound by every probe,
    successful or not. *)
Fixpoint probe (segments : list string) (indices : list nat)
    (version : option string) : M (option string) :=
  match indices with
  | [] => mret version
  | i :: indices' =>
      let package := Str.join "/" (take i segments) in
      '(code, version) ← eval ["go"; "list"; "-f"; "{{.Version}}"; "-m"; package];
      if code =? 0 then mret (Some version)
      else probe segments indices' (Some version)
  end.

Definition go_install (tool : string) (version : option string) : M unit :=
  let segments := Str.split "/" tool in
  match binary_name segments with
  | Raise e => raise e
  | Ok name =>
      tr ← get_trace;
      match which env tr name with
      | Some binary =>
          logging INFO ("Tool '" +:+ name +:+ "' is already installed at '"
                          +:+ binary +:+ "'")
      | None =>
          version ←
            match version with
            | None =>
                version ← probe segments
                            (range_down (length segments - 1) 2) None;
                match version with
                | None => raise (Exception ("Failed to find version for tool '"
                                              +:+ tool +:+ "'"))
                | Some version =>
                    logging INFO ("Version of tool '" +:+ tool +:+ "' is '"
                                    +:+ version +:+ "'");;
                    mret version
                end
            | Some version => mret version
            end;
          run ["go"; "install"; tool +:+ "@" +:+ version] no_kwargs
      end
  end.

(** [os.path.join(a, b)]. *)
Definition os_path_join (a b : string) : string :=
  match b with
  | String "/" _ => b
  | _ =>
      match String.rev a with
      | EmptyString | String "/" _ => a +:+ b
      | _ => a +:+ "/" +:+ b
      end
  end.

Definition install_go : M unit :=
  tr ← get_trace;
  match which env tr "go" with
  | Some directory =>
      logging INFO ("The 'go' tool is already installed at '" +:+ directory +:+ "'")
  | None => raise (Exception "The 'go' tool isn't available")
  end.

Definition install_ginkgo : M unit :=
  go_install "github.com/onsi/ginkgo/v2/ginkgo" None.

Definition install_mockgen : M unit :=
  go_install "go.uber.org/mock/mockgen" (Some ("v" +:+ MOCKGEN V)).

Definition curl (file url : string) : M unit :=
  run ["curl"; "--location"; "--silent"; "--fail"; "--output"; file; url] no_kwargs.

Definition S_IXUSR : Z := 64.

(** [mode = os.stat(file).st_mode; mode |= stat.S_IXUSR; os.chmod(file, mode)]. *)
Definition add_execution_permission (file : string) : M unit :=
  tr ← get_trace;
  match st_mode env tr file with
  | None => raise (OSError file)
  | Some mode => emit (Chmod file (Z.lor mode S_IXUSR))
  end.

Definition install_golangci_lint : M unit :=
  tr ← get_trace;
  match which env tr "golangci-lint" with
  | Some binary =>
      logging INFO ("Tool 'golangci-lint' is already installed at '" +:+ binary +:+ "'")
  | None =>
      bin ← select_bin_directory;
      let digest := "ca21c961a33be3bc15e4292dc40c98c8dcc5463a7b6768a3afc123761630c09c" in
      platform ← go_env "GOOS";
      architecture ← go_env "GOARCH";
      let url :=
        "https://github.com"
          +:+ "/golangci/golangci-lint/releases/download/v" +:+ GOLANGCI_LINT V
          +:+ "/golangci-lint-" +:+ GOLANGCI_LINT V +:+ "-" +:+ platform
          +:+ "-" +:+ architecture +:+ ".tar.gz" in
      tr ← get_trace;
      let tmp := mkdtemp env tr in
      emit (Mkdtemp tmp);;
      finally
        (let tarball_file := os_path_join tmp "tarball" in
         curl tarball_file url;;
         let digest_file := os_path_join tmp "digest" in
         emit (WriteFile digest_file
                 (digest +:+ " " +:+ tarball_file +:+ String Str.newline EmptyString));;
         run ["sha256sum"; "--check"; digest_file] no_kwargs;;
         run ["tar"; "--directory"; bin; "--extract"; "--file"; tarball_file;
              "--strip-components"; "1";
              "golangci-lint-" +:+ GOLANGCI_LINT V +:+ "-" +:+ platform +:+ "-"
                +:+ architecture +:+ "/golangci-lint"] no_kwargs)
        (emit (Rmtree tmp))
  end.

Definition install_opm : M unit :=
  tr ← get_trace;
  match which env tr "opm" with
  | Some binary =>
      logging INFO ("Tool 'opm' is already installed at '" +:+ binary +:+ "'")
  | None =>
      bin ← select_bin_directory;
      platform ← go_env "GOOS";
      architecture ← go_env "GOARCH";
      let url :=
        "https://github.com"
          +:+ "/operator-framework/operator-registry/releases/download/v" +:+ OPM V
          +:+ "/" +:+ platform +:+ "-" +:+ architecture +:+ "-opm" in
      let file := os_path_join bin "opm" in
      curl file url;;
      add_execution_permission file
  end.

Definition install_operator_sdk : M unit :=
  tr ← get_trace;
  match which env tr "operator-sdk" with
  | Some binary =>
      logging INFO ("Tool 'operator-sdk' is already installed at '" +:+ binary +:+ "'")
  | None =>
      bin ← select_bin_directory;
      platform ← go_env "GOOS";
      architecture ← go_env "GOARCH";
      let url :=
        "https://github.com"
          +:+ "/operator-framework/operator-sdk/releases/download/v" +:+ OPERATOR_SDK V
          +:+ "/operator-sdk_" +:+ platform +:+ "_" +:+ architecture in
      let file := os_path_join bin "operator-sdk" in
      curl file url;;
      add_execution_permission file
  end.

Definition install_kustomize : M unit :=
  go_install "sigs.k8s.io/kustomize/kustomize/v5" (Some ("v" +:+ KUSTOMIZE V)).

Definition install_controller_gen : M unit :=
  go_install "sigs.k8s.io/controller-tools/cmd/controller-gen"
    (Some ("v" +:+ CONTROLLER_GEN V)).

Definition install_setup_envtest : M unit :=
  go_install "sigs.k8s.io/controller-runtime/tools/setup-envtest" (Some "latest").

Definition install_spectral : M unit :=
  tr ← get_trace;
  match which env tr "spectral" with
  | Some binary =>
      logging INFO ("Tool 'spectral' is already installed at '" +:+ binary +:+ "'")
  | None =>
      bin ← select_bin_directory;
      platform ← go_env "GOOS";
      architecture ← go_env "GOARCH";
      let architecture :=
        if bool_decide (architecture = "amd64") then "x64" else architecture in
      let url :=
        "https://github.com"
          +:+ "/stoplightio/spectral/releases/download/v" +:+ SPECTRAL V
          +:+ "/spectral-" +:+ platform +:+ "-" +:+ architecture in
      let file := os_path_join bin "spectral" in
      curl file url;;
      add_execution_permission file
  end.

Definition setup : M unit :=
  install_go;;
  install_controller_gen;;
  install_ginkgo;;
  install_golangci_lint;;
  install_kustomize;;
  install_mockgen;;
  install_operator_sdk;;
  install_opm;;
  install_setup_envtest;;
  install_spectral.

(** *** dev/defaults.py *)

Definition IMAGE_REPOSITORY : string := "quay.io/openshift-kni/oran-o2ims".
Definition IMAGE_TAG : string := "latest".
Definition BUNDLE_IMAGE_REPOSITORY : string := IMAGE_REPOSITORY +:+ "-bundle".
Definition BUNDLE_IMAGE_TAG : string := IMAGE_TAG.

(** *** dev/build.py

    [build.py] and [push.py] both name their commands [image] and
    [bundle_image]; the module name is prefixed here. *)

Definition build_binary : M unit := run ["go"; "build"] no_kwargs.

Definition build_image (repository tag : string) : M unit :=
  run ["podman"; "build";
       "--tag"; repository +:+ ":" +:+ tag;
       "--file"; "Containerfile"] no_kwargs.

(** The two adjacent literals after ["--tag"] have no comma between them, so
    Python concatenates them into one list item. *)
Definition build_bundle_image (repository tag : string) : M unit :=
  run ["podman"; "build";
       "--file"; "bundle.Dockerfile";
       "--tag"; (repository +:+ ":" +:+ tag) +:+ "."] no_kwargs.

(** *** dev/generate.py *)

Definition mocks : M unit := run ["go"; "generate"; "./..."] no_kwargs.

Definition manifests : M unit :=
  run ["controller-gen";
       "rbac:roleName=manager-role";
       "crd";
       "webhook";
       "paths=./...";
       "output:crd:artifacts:config="
         +:+ os_path_join (os_path_join "config" "crd") "bases"] no_kwargs.

Definition deep_copy : M unit :=
  run ["controller-gen";
       "object:headerFile=" +:+ os_path_join "hack" "boilerplate.go.txt";
       "paths=./..."] no_kwargs.

Definition bundle (image : string) : M unit :=
  run ["operator-sdk"; "generate"; "kustomize"; "manifests";
       "--quiet";
       "--apis-dir"; "api"] no_kwargs;;
  run ["kustomize"; "edit"; "set"; "image"; "controller=" +:+ image]
      {| cwd := Some (os_path_join "config" "manager");
         stdin := Inherit; stdout := Inherit |};;
  run ["kustomize"; "build"; os_path_join "config" "manifests"] no_kwargs;;
  run ["operator-sdk"; "bundle"; "validate"; os_path_join "." "bundle"] no_kwargs.

Inductive generate_command :=
| Mocks
| Manifests
| DeepCopy
| Bundle (image : string).

(** The callback of the [generate] group; [ctx.invoke(bundle)] fills in the
    default of [--image]. *)
Definition generate (invoked_subcommand : option generate_command) : M unit :=
  match invoked_subcommand with
  | Some _ => mret tt
  | None =>
      mocks;;
      manifests;;
      deep_copy;;
      bundle (IMAGE_REPOSITORY +:+ ":" +:+ IMAGE_TAG)
  end.

(** *** dev/push.py *)

Definition push_image (repository tag : string) : M unit :=
  run ["podman"; "push"; repository +:+ ":" +:+ tag] no_kwargs.

Definition push_bundle_image (repository tag : string) : M unit :=
  run ["podman"; "push"; repository +:+ ":" +:+ tag] no_kwargs.

(** *** dev/deploy.py and dev/install.py *)

(** [with tempfile.TemporaryFile() as tmp: body]. *)
Definition with_temporary_file {A} (body : M A) : M A :=
  emit OpenTemp;;
  finally body (emit CloseTemp).

(** [kustomize build dir] into the temporary file, then [kubectl] reading
    it. *)
Definition kustomize_into_kubectl (dir : string) (kubectl : list string) : M unit :=
  with_temporary_file
    (run ["kustomize"; "build"; dir]
         {| cwd := None; stdin := Inherit; stdout := TempFile |};;
     emit SeekTemp;;
     run kubectl {| cwd := None; stdin := TempFile; stdout := Inherit |}).

Definition deploy (image : string) : M unit :=
  run ["kustomize"; "edit"; "set"; "image"; "controller=" +:+ image]
      {| cwd := Some (os_path_join "config" "manager");
         stdin := Inherit; stdout := Inherit |};;
  kustomize_into_kubectl (os_path_join "config" "default")
    ["kubectl"; "apply"; "--filename"; "-"].

Definition undeploy (ignore_not_found : bool) : M unit :=
  kustomize_into_kubectl (os_path_join "config" "default")
    ["kubectl"; "delete";
     "--ignore-not-found=" +:+ Str.lower_of_bool ignore_not_found;
     "--filename"; "-"].

Definition install : M unit :=
  kustomize_into_kubectl (os_path_join "config" "crd")
    ["kubectl"; "apply"; "--filename"; "-"].

Definition uninstall (ignore_not_found : bool) : M unit :=
  kustomize_into_kubectl (os_path_join "config" "crd")
    ["kubectl"; "delete";
     "--ignore-not-found=" +:+ Str.lower_of_bool ignore_not_found;
     "--filename"; "-"].

(** *** dev/test.py *)

(** [shlex.split], a pure function of the standard library: [None] stands for
    the [ValueError] it raises on unbalanced quotes. *)
Context (shlex_split : string -> option (list string)).

Definition test : M unit :=
  let ginkgo_args := ["ginkgo"; "run"; "-r"] in
  match getenv env "GINKGO_FLAGS" with
  | None => run ginkgo_args no_kwargs
  | Some ginkgo_flags =>
      match shlex_split ginkgo_flags with
      | None => raise ValueError
      | Some flags => run (ginkgo_args ++ flags) no_kwargs
      end
  end.

(** *** dev.py *)

Inductive build_command :=
| BuildBinary
| BuildImage (repository tag : string)
| BuildBundleImage (repository tag : string).

Inductive push_command :=
| PushImage (repository tag : string)
| PushBundleImage (repository tag : string).

(** A parsed command line, options filled in by click.  The commands of the
    modules [ci_job], [clean], [fmt], [lint], [run], [update] and [vet] are
    left out. *)
Inductive invocation :=
| Build (c : build_command)
| Generate (c : option generate_command)
| Deploy (image : string)
| Undeploy (ignore_not_found : bool)
| Install
| Uninstall (ignore_not_found : bool)
| Push (c : push_command)
| Setup
| Test.

(** [build] with no arguments is [build binary] and [push] with no arguments
    is [push image], by [click_default_group]. *)
Definition build_default : invocation := Build BuildBinary.
Definition push_default : invocation :=
  Push (PushImage IMAGE_REPOSITORY IMAGE_TAG).

Definition cli (i : invocation) : M unit :=
  match i with
  | Build BuildBinary => build_binary
  | Build (BuildImage repository tag) => build_image repository tag
  | Build (BuildBundleImage repository tag) => build_bundle_image repository tag
  | Generate None => generate None
  | Generate (Some c) =>
      generate (Some c);;
      match c with
      | Mocks => mocks
      | Manifests => manifests
      | DeepCopy => deep_copy
      | Bundle image => bundle image
      end
  | Deploy image => deploy image
  | Undeploy ignore_not_found => undeploy ignore_not_found
  | Install => install
  | Uninstall ignore_not_found => uninstall ignore_not_found
  | Push (PushImage repository tag) => push_image repository tag
  | Push (PushBundleImage repository tag) => push_bundle_image repository tag
  | Setup => setup
  | Test => test
  end.

(** The status the process ends with. *)
Definition main (i : invocation) : Z := exit_status (cli i initial).1.

End Dev.

(** ** Statement vocabulary *)

(** The installers that [setup] calls, as one family. *)
Inductive installer :=
| GoTool (tool : string) (version : option string)      (* [go_install] *)
| GoCompiler                                            (* [install_go] *)
| GolangciLint
| Opm
| OperatorSdk
| Spectral.

(** The name each installer hands to [shutil.which]. *)
Definition expected_binary (i : installer) : result string :=
  match i with
  | GoTool tool _ => binary_name (Str.split "/" tool)
  | GoCompiler => Ok "go"
  | GolangciLint => Ok "golangci-lint"
  | Opm => Ok "opm"
  | OperatorSdk => Ok "operator-sdk"
  | Spectral => Ok "spectral"
  end.

Definition run_installer (env : environ) (V : versions) (i : installer) : M unit :=
  match i with
  | GoTool tool version => go_install env tool version
  | GoCompiler => install_go env
  | GolangciLint => install_golangci_lint env V
  | Opm => install_opm env V
  | OperatorSdk => install_operator_sdk env V
  | Spectral => install_spectral env V
  end.

(** The state after one more log record and nothing else. *)
Definition logged (st : state) (lvl : level) (msg : string) : state :=
  {| trace := trace st ++ [Log lvl msg]; go_env_cache := go_env_cache st |}.

(** The text [command.run] and [command.eval] log for a command. *)
Definition command_line (args : list string) : string :=
  Str.join " " (shlex_quote <$> args).

(** The three records a call of [command.run] leaves when the child exits. *)
Definition run_events (args : list string) (kw : kwargs) (code : Z) : list event :=
  [Log DEBUG ("Running command '" +:+ command_line args +:+ "'");
   Spawn args kw false;
   Log DEBUG ("Exit code of '" +:+ command_line args +:+ "' is " +:+ Str.of_Z code)].

(** The records a call of [command.eval] leaves when the child exits. *)
Definition eval_events (args : list string) (code : Z) (out : string) : list event :=
  [Log DEBUG ("Evaluating command '" +:+ command_line args +:+ "'");
   Spawn args no_kwargs true;
   Log DEBUG ("Exit code of '" +:+ command_line args +:+ "' is " +:+ Str.of_Z code);
   Log DEBUG ("Output of '" +:+ command_line args +:+ "' is '" +:+ Str.strip out +:+ "'")].

(** The state after more events and nothing else. *)
Definition extended (st : state) (evs : list event) : state :=
  {| trace := trace st ++ evs; go_env_cache := go_env_cache st |}.

(** Every process can be started: [subprocess.run] itself never raises. *)
Definition always_starts (env : environ) : Prop :=
  forall tr args kw capture,
    exists code out, subprocess env tr args kw capture = Exited code out.

(** The command lines of the four generation steps, in the order of the
    [generate] callback: mocks, manifests, deep copy, then the four commands
    of the bundle. *)
Definition generate_steps : list (list string) :=
  [["go"; "generate"; "./..."];
   ["controller-gen"; "rbac:roleName=manager-role"; "crd"; "webhook";
    "paths=./..."; "output:crd:artifacts:config=config/crd/bases"];
   ["controller-gen"; "object:headerFile=hack/boilerplate.go.txt"; "paths=./..."];
   ["operator-sdk"; "generate"; "kustomize"; "manifests"; "--quiet";
    "--apis-dir"; "api"];
   ["kustomize"; "edit"; "set"; "image";
    "controller=quay.io/openshift-kni/oran-o2ims:latest"];
   ["kustomize"; "build"; "config/manifests"];
   ["operator-sdk"; "bundle"; "validate"; "./bundle"]].

(** A stand-in for [shlex.split] that is right on flags without quotes or
    escapes: split on white space. *)
Definition split_words (s : string) : option (list string) := Some (String.words s).

(** The [go list] query of the dependency manifest for one package. *)
Definition manifest_query (package : string) : list string :=
  ["go"; "list"; "-f"; "{{.Version}}"; "-m"; package].

(** ** Concrete environments *)

(** An environment whose answers do not depend on the history: the value of
    [PATH], the binaries found on it and the outcome of each command line. *)
Definition scripted (path : option string) (present : string -> option string)
    (proc : list string -> proc_result) : environ :=
  {| getenv := fun var => if bool_decide (var = "PATH") then path else None;
     which := fun _ => present;
     subprocess := fun _ args _ _ => proc args;
     mkdtemp := fun _ => "/tmp/tmpk3v9";
     st_mode := fun _ _ => Some 420;
     module_file := "/work/oran-o2ims/dev/setup.py" |}.

Definition nothing_installed : string -> option string := fun _ => None.

Definition sample_versions : versions :=
  {| MOCKGEN := "0.3.0"; GOLANGCI_LINT := "1.55.2"; OPM := "1.33.0";
     OPERATOR_SDK := "1.32.0"; KUSTOMIZE := "5.2.1"; CONTROLLER_GEN := "0.13.0";
     SPECTRAL := "6.11.0" |}.

(** The download works and [sha256sum --check] reports a mismatch. *)
Definition checksum_mismatch (args : list string) : proc_result :=
  match args with
  | "sha256sum" :: _ => Exited 1 "/tmp/tmpk3v9/tarball: FAILED"
  | ["go"; "env"; "GOOS"] => Exited 0 "linux"
  | ["go"; "env"; "GOARCH"] => Exited 0 "amd64"
  | _ => Exited 0 EmptyString
  end.

Definition checksum_mismatch_env : environ :=
  scripted (Some "/work/oran-o2ims/bin:/usr/bin") nothing_installed checksum_mismatch.

(** The compiler fails: [go build] exits with status 2. *)
Definition build_fails (args : list string) : proc_result :=
  match args with
  | ["go"; "build"] => Exited 2 EmptyString
  | _ => Exited 0 EmptyString
  end.

Definition build_fails_env : environ :=
  scripted (Some "/usr/bin") nothing_installed build_fails.

(** The dependency manifest knows none of the queried modules: every
    [go list] exits with status 1 and prints nothing on standard output. *)
Definition manifest_knows_nothing (args : list string) : proc_result :=
  match args with
  | "go" :: "list" :: _ => Exited 1 EmptyString
  | _ => Exited 0 EmptyString
  end.

Definition manifest_knows_nothing_env : environ :=
  scripted (Some "/usr/bin") nothing_installed manifest_knows_nothing.

(** The manifest has two nested modules: the complete path of the tool, at
    v1.2.3, and its parent, at v0.9.0. *)
Definition nested_modules (args : list string) : proc_result :=
  match args with
  | ["go"; "list"; "-f"; "{{.Version}}"; "-m"; "example.com/org/repo/tool"] =>
      Exited 0 "v1.2.3"
  | ["go"; "list"; "-f"; "{{.Version}}"; "-m"; "example.com/org/repo"] =>
      Exited 0 "v0.9.0"
  | "go" :: "list" :: _ => Exited 1 EmptyString
  | _ => Exited 0 EmptyString
  end.

Definition nested_modules_env : environ :=
  scripted (Some "/usr/bin") nothing_installed nested_modules.

(** Mock generation fails: [go generate] exits with status 1. *)
Definition mocks_fail (args : list string) : proc_result :=
  match args with
  | ["go"; "generate"; _] => Exited 1 EmptyString
  | _ => Exited 0 EmptyString
  end.

Definition mocks_fail_env : environ :=
  scripted (Some "/usr/bin") nothing_installed mocks_fail.

(** Only [GOBIN] is on the search path. *)
Definition go_reports (args : list string) : proc_result :=
  match args with
  | ["go"; "env"; "GOBIN"] => Exited 0 "/home/dev/go/bin"
  | ["go"; "env"; "GOROOT"] => Exited 0 "/usr/lib/golang"
  | _ => Exited 0 EmptyString
  end.

Definition gobin_on_path_env : environ :=
  scripted (Some "/home/dev/go/bin:/usr/bin") nothing_installed go_reports.

(** [ginkgo] is installed, nothing else is. *)
Definition ginkgo_installed : string -> option string := fun name =>
  if bool_decide (name = "ginkgo") then Some "/usr/local/bin/ginkgo" else None.

Definition ginkgo_installed_env : environ :=
  scripted (Some "/usr/bin") ginkgo_installed manifest_knows_nothing.

(** The compiler is installed. *)
Definition go_installed : string -> option string := fun name =>
  if bool_decide (name = "go") then Some "/usr/bin/go" else None.

Definition go_installed_env : environ :=
  scripted (Some "/usr/bin") go_installed manifest_knows_nothing.

(** ** Vocabulary for effects *)

(** The event is a log record or the spawning of a process: the program
    itself creates, writes, removes or changes nothing on the filesystem. *)
Definition process_or_log (e : event) : Prop :=
  match e with
  | Log _ _ | Spawn _ _ _ => True
  | _ => False
  end.

(** Every event the computation adds to the trace satisfies [P], whatever
    the state it starts from and however it ends. *)
Definition adds_only {A} (P : event -> Prop) (m : M A) : Prop :=
  forall st, exists evs, trace (m st).2 = trace st ++ evs /\ Forall P evs.

(** The computation leaves the memo table of [go_env] alone. *)
Definition keeps_cache {A} (m : M A) : Prop :=
  forall st, go_env_cache (m st).2 = go_env_cache st.

(** The manifest queries the loop of [go_install] can make for a path, in
    the order of the loop. *)
Definition lookups (segments : list string) : list (list string) :=
  (fun i => manifest_query (Str.join "/" (take i segments)))
    <$> range_down (length segments - 1) 2.

(** The names [setup] asks [shutil.which] for, in the order of its calls. *)
Definition setup_binaries : list string :=
  ["go"; "controller-gen"; "ginkgo"; "golangci-lint"; "kustomize"; "mockgen";
   "operator-sdk"; "opm"; "setup-envtest"; "spectral"].

(** The set of directories [select_bin_directory] builds from [PATH]. *)
Definition search_path (path : string) : gset Path.t :=
  list_to_set (Path.of_string <$> Str.split ":" path).

(** The repository's [bin] directory is on the search path. *)
Definition repository_bin_env : environ :=
  scripted (Some "/usr/bin:/work/oran-o2ims/bin") nothing_installed go_reports.

(** The toolchain cannot report its environment: [go env] exits with 1. *)
Definition go_env_fails (args : list string) : proc_result :=
  match args with
  | "go" :: "env" :: _ => Exited 1 EmptyString
  | _ => Exited 0 EmptyString
  end.

Definition go_env_fails_env : environ :=
  scripted (Some "/usr/bin") nothing_installed go_env_fails.

(** No [PATH] in the environment. *)
Definition no_path_env : environ :=
  scripted None nothing_installed go_reports.

(** Every tool [setup] looks for is installed under [/usr/bin]. *)
Definition everything_installed_env : environ :=
  scripted (Some "/usr/bin") (fun name => Some ("/usr/bin/" +:+ name)) go_reports.

(** [GOROOT/bin] is on the search path, written with a trailing slash. *)
Definition goroot_on_path_env : environ :=
  scripted (Some "/usr/lib/golang/bin/:/usr/bin") nothing_installed go_reports.

(** If the computation opened the anonymous temporary file, closing it is
    the last thing it did. *)
Definition closes_what_it_opens (m : M unit) : Prop :=
  forall st, exists evs,
    trace (m st).2 = trace st ++ evs
    /\ (OpenTemp ∈ evs -> last evs = Some CloseTemp).

(** The computation never raises. *)
Definition returns_normally (m : M unit) : Prop :=
  forall st, (m st).1 = Ok tt.

(** The commands that do nothing but run external programs. *)
Definition only_runs_programs (i : invocation) : Prop :=
  match i with
  | Setup | Test => False
  | _ => True
  end.

(** The toolchain reports a 64-bit Intel Linux; nothing is installed and the
    repository's [bin] directory is on the search path. *)
Definition linux_amd64 (args : list string) : proc_result :=
  match args with
  | ["go"; "env"; "GOOS"] => Exited 0 "linux"
  | ["go"; "env"; "GOARCH"] => Exited 0 "amd64"
  | _ => Exited 0 EmptyString
  end.

Definition linux_amd64_env : environ :=
  scripted (Some "/work/oran-o2ims/bin:/usr/bin") nothing_installed linux_amd64.

(** The variable [GINKGO_FLAGS] is set to two flags. *)
Definition ginkgo_flags_env : environ :=
  {| getenv := fun var =>
       if bool_decide (var = "GINKGO_FLAGS") then Some "-v --fail-fast" else None;
     which := fun _ => nothing_installed;
     subprocess := fun _ _ _ _ => Exited 0 EmptyString;
     mkdtemp := fun _ => "/tmp/tmpk3v9";
     st_mode := fun _ _ => Some 420;
     module_file := "/work/oran-o2ims/dev/setup.py" |}.

(** Every program fails: each process exits with status 3. *)
Definition failing_programs_env : environ :=
  {| getenv := fun _ => None;
     which := fun _ => nothing_installed;
     subprocess := fun _ _ _ _ => Exited 3 EmptyString;
     mkdtemp := fun _ => "/tmp/tmpk3v9";
     st_mode := fun _ _ => Some 420;
     module_file := "/work/oran-o2ims/dev/setup.py" |}.

(** The command lines of one generation step. *)
Definition steps_of (c : generate_command) : list (list string) :=
  match c with
  | Mocks => [["go"; "generate"; "./..."]]
  | Manifests =>
      [["controller-gen"; "rbac:roleName=manager-role"; "crd"; "webhook";
        "paths=./..."; "output:crd:artifacts:config=config/crd/bases"]]
  | DeepCopy =>
      [["controller-gen"; "object:headerFile=hack/boilerplate.go.txt";
        "paths=./..."]]
  | Bundle image =>
      [["operator-sdk"; "generate"; "kustomize"; "manifests"; "--quiet";
        "--apis-dir"; "api"];
       ["kustomize"; "edit"; "set"; "image"; "controller=" +:+ image];
       ["kustomize"; "build"; "config/manifests"];
       ["operator-sdk"; "bundle"; "validate"; "./bundle"]]
  end.

(** The text has ASCII characters only (code points below 128).  On such
    text the string primitives above are the ones of Python. *)
Definition ascii_text (s : string) : Prop :=
  Str.all (fun c => (nat_of_ascii c <? 128)%nat) s = true.


(** ** The monad, step by step *)

Lemma bind_ok {A B} (m : M A) (f : A -> M B) st a st' :
  m st = (Ok a, st') -> (m ≫= f) st = f a st'.
Proof. intros H. unfold mbind, M_bind. by rewrite H. Qed.

Lemma bind_raise {A B} (m : M A) (f : A -> M B) st e st' :
  m st = (Raise e, st') -> (m ≫= f) st = (Raise e, st').
Proof. intros H. unfold mbind, M_bind. by rewrite H. Qed.

Lemma append_assoc (a b c : string) : (a +:+ b) +:+ c = a +:+ b +:+ c.
Proof.
  induction a as [|x a IH]; [done|].
  change (String x ((a +:+ b) +:+ c) = String x (a +:+ b +:+ c)).
  by rewrite IH.
Qed.

Lemma spawned_app tr1 tr2 : spawned (tr1 ++ tr2) = spawned tr1 ++ spawned tr2.
Proof. apply omap_app. Qed.

(** ** dev/command.py *)

(** [command.run] returns normally whatever status the child exits with. *)
Lemma run_exited env args kw st code out :
  subprocess env
    (trace st ++ [Log DEBUG ("Running command '" +:+ command_line args +:+ "'")])
    args kw false = Exited code out ->
  run env args kw st
  = (Ok tt, {| trace := trace st ++ run_events args kw code;
               go_env_cache := go_env_cache st |}).
Proof.
  intros H. unfold run, subprocess_run, logging, emit, get_trace, raise.
  unfold mbind, M_bind, mret, M_ret. cbn -[String.append Str.of_Z command_line].
  fold (command_line args). rewrite H.
  cbn -[String.append Str.of_Z command_line].
  by rewrite <- !app_assoc.
Qed.

(** When the child cannot be started the exception of [subprocess.run]
    propagates. *)
Lemma run_not_started env args kw st e :
  subprocess env
    (trace st ++ [Log DEBUG ("Running command '" +:+ command_line args +:+ "'")])
    args kw false = NotStarted e ->
  run env args kw st
  = (Raise e, {| trace := trace st
                   ++ [Log DEBUG ("Running command '" +:+ command_line args +:+ "'");
                       Spawn args kw false];
                 go_env_cache := go_env_cache st |}).
Proof.
  intros H. unfold run, subprocess_run, logging, emit, get_trace, raise.
  unfold mbind, M_bind, mret, M_ret. cbn -[String.append Str.of_Z command_line].
  fold (command_line args). rewrite H.
  cbn -[String.append Str.of_Z command_line].
  by rewrite <- !app_assoc.
Qed.

(** Either way [command.run] hands exactly [args] to [subprocess.run], once,
    and touches nothing but the trace. *)
Lemma run_spawns_once env args kw st :
  exists evs,
    (run env args kw st).2
    = {| trace := trace st ++ evs; go_env_cache := go_env_cache st |}
    /\ spawned evs = [args].
Proof.
  destruct (subprocess env
    (trace st ++ [Log DEBUG ("Running command '" +:+ command_line args +:+ "'")])
    args kw false) as [code out|e] eqn:H.
  - rewrite (run_exited _ _ _ _ _ _ H). eexists; split; [reflexivity|]. done.
  - rewrite (run_not_started _ _ _ _ _ H). eexists; split; [reflexivity|]. done.
Qed.

(** ** dev/setup.py: tools that are already installed *)

(** C6. Whenever [shutil.which] finds the binary an installer expects, the
    installer returns normally and its only effect is one log record: no
    process is spawned (so nothing is downloaded and the binary found is not
    asked for its version) and no file or directory is created, written or
    changed.  Nothing but the answer of [shutil.which] is consulted. *)
Theorem already_installed_is_noop env V i name binary st :
  expected_binary i = Ok name ->
  which env (trace st) name = Some binary ->
  exists msg, run_installer env V i st = (Ok tt, logged st INFO msg).
Proof.
  intros Hname Hwhich.
  destruct i as [tool version| | | | |]; simpl in Hname;
    try (injection Hname as <-); simpl.
  - unfold go_install. rewrite Hname.
    rewrite (bind_ok get_trace _ st (trace st) st eq_refl).
    rewrite Hwhich. by eexists.
  - unfold install_go.
    rewrite (bind_ok get_trace _ st (trace st) st eq_refl).
    rewrite Hwhich. by eexists.
  - unfold install_golangci_lint.
    rewrite (bind_ok get_trace _ st (trace st) st eq_refl).
    rewrite Hwhich. by eexists.
  - unfold install_opm.
    rewrite (bind_ok get_trace _ st (trace st) st eq_refl).
    rewrite Hwhich. by eexists.
  - unfold install_operator_sdk.
    rewrite (bind_ok get_trace _ st (trace st) st eq_refl).
    rewrite Hwhich. by eexists.
  - unfold install_spectral.
    rewrite (bind_ok get_trace _ st (trace st) st eq_refl).
    rewrite Hwhich. by eexists.
Qed.

Lemma already_installed_is_noop_witness :
  exists msg,
    run_installer ginkgo_installed_env sample_versions
      (GoTool "github.com/onsi/ginkgo/v2/ginkgo" None) initial
    = (Ok tt, logged initial INFO msg).
Proof.
  apply (already_installed_is_noop ginkgo_installed_env sample_versions
           (GoTool "github.com/onsi/ginkgo/v2/ginkgo" None)
           "ginkgo" "/usr/local/bin/ginkgo" initial).
  - reflexivity.
  - reflexivity.
Defined.

(** C9. [install_go] only asks [shutil.which] for the compiler.  When it is
    found the call returns normally after one log record; when it is not the
    call raises "The 'go' tool isn't available" and has no effect at all:
    nothing is downloaded or installed in either case. *)
Theorem install_go_never_installs env st :
  (forall directory,
      which env (trace st) "go" = Some directory ->
      exists msg, install_go env st = (Ok tt, logged st INFO msg))
  /\ (which env (trace st) "go" = None ->
      install_go env st = (Raise (Exception "The 'go' tool isn't available"), st)).
Proof.
  unfold install_go.
  rewrite (bind_ok get_trace _ st (trace st) st eq_refl).
  split.
  - intros directory ->. by eexists.
  - by intros ->.
Qed.

Lemma install_go_never_installs_witness :
  (exists msg, install_go go_installed_env initial = (Ok tt, logged initial INFO msg))
  /\ install_go build_fails_env initial
     = (Raise (Exception "The 'go' tool isn't available"), initial).
Proof.
  split.
  - apply (proj1 (install_go_never_installs go_installed_env initial) "/usr/bin/go").
    reflexivity.
  - apply (proj2 (install_go_never_installs build_fails_env initial)).
    reflexivity.
Defined.

(** ** dev/setup.py: explicit versions *)

(** C8. With an explicit version [go_install] never queries the dependency
    manifest, and the version reaches the install command as it was given.
    The processes it spawns are exactly these: when the name of the binary is
    determined and [shutil.which] does not find it, the single command
    [go install tool@version]; otherwise (the tool is already installed, or
    its name cannot be determined) none at all.  Nothing but the trace
    changes. *)
Theorem explicit_version_skips_manifest env tool version st :
  exists evs,
    (go_install env tool (Some version) st).2
    = {| trace := trace st ++ evs; go_env_cache := go_env_cache st |}
    /\ spawned evs
       = match binary_name (Str.split "/" tool) with
         | Ok name =>
             match which env (trace st) name with
             | None => [["go"; "install"; tool +:+ "@" +:+ version]]
             | Some _ => []
             end
         | Raise _ => []
         end.
Proof.
  unfold go_install.
  destruct (binary_name (Str.split "/" tool)) as [name|e].
  - rewrite (bind_ok get_trace _ st (trace st) st eq_refl).
    destruct (which env (trace st) name) as [binary|].
    + eexists; split; [reflexivity|]. done.
    + rewrite (bind_ok (mret version) _ st version st eq_refl).
      destruct (run_spawns_once env ["go"; "install"; tool +:+ "@" +:+ version]
                  no_kwargs st) as (evs & -> & Hs).
      exists evs. split; [done|]. done.
  - exists []. split; [|done].
    unfold raise. simpl. rewrite app_nil_r. by destruct st.
Qed.

(** ** dev/build.py *)

(** C10. [build bundle-image] hands [subprocess.run] exactly one argument
    list, whose last item is the image reference with a dot fused onto it;
    there is no separate build-context argument. *)
Theorem bundle_image_fuses_context env repository tag st :
  spawned (trace (build_bundle_image env repository tag st).2)
  = spawned (trace st)
      ++ [["podman"; "build"; "--file"; "bundle.Dockerfile"; "--tag";
           repository +:+ ":" +:+ tag +:+ "."]].
Proof.
  unfold build_bundle_image.
  destruct (run_spawns_once env
              ["podman"; "build"; "--file"; "bundle.Dockerfile"; "--tag";
               (repository +:+ ":" +:+ tag) +:+ "."] no_kwargs st)
    as (evs & -> & Hs).
  cbn [snd trace]. rewrite spawned_app, Hs.
  by rewrite append_assoc.
Qed.

(** ** dev/command.py: exit statuses *)

Lemma run_always_returns env args kw st :
  always_starts env ->
  exists code, run env args kw st = (Ok tt, extended st (run_events args kw code)).
Proof.
  intros Hstart.
  destruct (Hstart
    (trace st ++ [Log DEBUG ("Running command '" +:+ command_line args +:+ "'")])
    args kw false) as (code & out & H).
  exists code. by rewrite (run_exited _ _ _ _ _ _ H).
Qed.

Lemma eval_exited env args st code out :
  subprocess env
    (trace st ++ [Log DEBUG ("Evaluating command '" +:+ command_line args +:+ "'")])
    args no_kwargs true = Exited code out ->
  eval env args st = (Ok (code, Str.strip out), extended st (eval_events args code out)).
Proof.
  intros H. unfold eval, subprocess_run, logging, emit, get_trace, raise, extended.
  unfold mbind, M_bind, mret, M_ret.
  cbn -[String.append Str.of_Z Str.strip command_line].
  fold (command_line args). rewrite H.
  cbn -[String.append Str.of_Z Str.strip command_line].
  by rewrite <- !app_assoc.
Qed.

Lemma extended_extended st evs1 evs2 :
  extended (extended st evs1) evs2 = extended st (evs1 ++ evs2).
Proof. unfold extended. simpl. by rewrite app_assoc. Qed.

(** C2. Failing input: [build] (that is [build binary]) when [go build]
    exits with status 2.  The command line is run, its status is logged and
    dropped, and the process ends with status 0. *)
Theorem failed_build_exits_zero :
  build_fails ["go"; "build"] = Exited 2 EmptyString
  /\ spawned (trace (cli build_fails_env sample_versions split_words
                       build_default initial).2) = [["go"; "build"]]
  /\ main build_fails_env sample_versions split_words build_default = 0.
Proof. by vm_compute. Qed.

(** ** dev/generate.py *)

(** Whatever statuses the seven commands exit with, [generate] without a
    subcommand runs all of them, in the fixed order, and returns normally. *)
Lemma generate_runs_every_step env st :
  always_starts env ->
  exists evs,
    generate env None st = (Ok tt, extended st evs)
    /\ spawned evs = generate_steps.
Proof.
  intros Hstart. unfold generate, mocks, manifests, deep_copy, bundle.
  repeat match goal with
  | |- context [ (run env ?args ?kw ≫= ?f) ?s ] =>
      let code := fresh "code" in
      let H := fresh "H" in
      destruct (run_always_returns env args kw s Hstart) as [code H];
      rewrite (bind_ok (run env args kw) f s tt _ H);
      clear H
  end.
  match goal with
  | |- context [ run env ?args ?kw ?s ] =>
      destruct (run_always_returns env args kw s Hstart) as [code6 H];
      rewrite H; clear H
  end.
  rewrite !extended_extended.
  eexists; split; [reflexivity|]. reflexivity.
Qed.

(** C5. Failing input: [generate] with no subcommand when mock generation
    ([go generate ./...]) exits with status 1.  The three later steps are run
    all the same and the invocation returns normally. *)
Theorem generate_continues_after_failure :
  mocks_fail ["go"; "generate"; "./..."] = Exited 1 EmptyString
  /\ (generate mocks_fail_env None initial).1 = Ok tt
  /\ spawned (trace (generate mocks_fail_env None initial).2) = generate_steps.
Proof. by vm_compute. Qed.

(** ** dev/setup.py: the checksum of golangci-lint *)

(** C1. Failing input: [install_golangci_lint] when the tool is absent, the
    repository's [bin] directory is on the search path, the download works
    and [sha256sum --check] exits with status 1.  [tar] is run next and
    extracts the binary into the selected directory, and the installation
    returns normally. *)
Theorem checksum_mismatch_still_extracts :
  checksum_mismatch ["sha256sum"; "--check"; "/tmp/tmpk3v9/digest"]
    = Exited 1 "/tmp/tmpk3v9/tarball: FAILED"
  /\ (install_golangci_lint checksum_mismatch_env sample_versions initial).1 = Ok tt
  /\ spawned (trace (install_golangci_lint checksum_mismatch_env sample_versions
                       initial).2)
     = [["go"; "env"; "GOOS"];
        ["go"; "env"; "GOARCH"];
        ["curl"; "--location"; "--silent"; "--fail";
         "--output"; "/tmp/tmpk3v9/tarball";
         "https://github.com/golangci/golangci-lint/releases/download/v1.55.2/golangci-lint-1.55.2-linux-amd64.tar.gz"];
        ["sha256sum"; "--check"; "/tmp/tmpk3v9/digest"];
        ["tar"; "--directory"; "/work/oran-o2ims/bin"; "--extract";
         "--file"; "/tmp/tmpk3v9/tarball"; "--strip-components"; "1";
         "golangci-lint-1.55.2-linux-amd64/golangci-lint"]].
Proof. by vm_compute. Qed.

(** ** dev/setup.py: versions from the dependency manifest *)

(** The loop probes the prefixes of three segments and more, longest first,
    and stops short of the complete path. *)
Lemma range_down_bounds (start stop i : nat) :
  i ∈ range_down start stop -> (stop < i <= start)%nat.
Proof.
  unfold range_down. rewrite elem_of_reverse, elem_of_seq. lia.
Qed.

Lemma probed_prefixes_are_proper (segments : list string) (i : nat) :
  i ∈ range_down (length segments - 1) 2 ->
  (3 <= i)%nat /\ (length (take i segments) < length segments)%nat.
Proof.
  intros H%range_down_bounds. rewrite length_take. lia.
Qed.

(** A successful lookup ends the loop: its version is the result and no
    shorter prefix is probed. *)
Lemma probe_stops_at_success env segments i indices version st out :
  subprocess env
    (trace st ++ [Log DEBUG ("Evaluating command '"
       +:+ command_line (manifest_query (Str.join "/" (take i segments))) +:+ "'")])
    (manifest_query (Str.join "/" (take i segments))) no_kwargs true
    = Exited 0 out ->
  probe env segments (i :: indices) version st
  = (Ok (Some (Str.strip out)),
     extended st (eval_events (manifest_query (Str.join "/" (take i segments))) 0 out)).
Proof.
  intros H. cbn [probe].
  fold (manifest_query (Str.join "/" (take i segments))).
  by rewrite (bind_ok _ _ _ _ _ (eval_exited _ _ _ _ _ H)).
Qed.

(** A failed lookup rebinds [version] to what the command printed and moves
    on to the next prefix. *)
Lemma probe_continues_after_failure env segments i indices version st code out :
  code <> 0 ->
  subprocess env
    (trace st ++ [Log DEBUG ("Evaluating command '"
       +:+ command_line (manifest_query (Str.join "/" (take i segments))) +:+ "'")])
    (manifest_query (Str.join "/" (take i segments))) no_kwargs true
    = Exited code out ->
  probe env segments (i :: indices) version st
  = probe env segments indices (Some (Str.strip out))
      (extended st (eval_events (manifest_query (Str.join "/" (take i segments)))
                      code out)).
Proof.
  intros Hcode H. cbn [probe].
  fold (manifest_query (Str.join "/" (take i segments))).
  rewrite (bind_ok _ _ _ _ _ (eval_exited _ _ _ _ _ H)).
  by destruct (Z.eqb_spec code 0).
Qed.

(** Once the loop body has run, [version] is no longer [None], whether or not
    any lookup succeeded. *)
Lemma probe_rebinds_version env segments indices version st :
  always_starts env ->
  indices <> [] ->
  exists v st', probe env segments indices version st = (Ok (Some v), st').
Proof.
  intros Hstart. revert version st.
  induction indices as [|i indices IH]; intros version st Hne; [done|].
  destruct (Hstart
    (trace st ++ [Log DEBUG ("Evaluating command '"
       +:+ command_line (manifest_query (Str.join "/" (take i segments))) +:+ "'")])
    (manifest_query (Str.join "/" (take i segments))) no_kwargs true)
    as (code & out & H).
  destruct (Z.eq_dec code 0) as [->|Hcode].
  - rewrite (probe_stops_at_success _ _ _ _ _ _ _ H). by eexists _, _.
  - rewrite (probe_continues_after_failure _ _ _ _ _ _ _ _ Hcode H).
    destruct indices as [|j indices]; [by eexists _, _|].
    by apply IH.
Qed.

(** C3. Failing input: [go_install] of ginkgo without a version when the
    manifest knows neither of the two prefixes probed.  No exception is
    raised: [go install] is run with an empty version. *)
Theorem lookup_exhaustion_still_installs :
  (go_install manifest_knows_nothing_env "github.com/onsi/ginkgo/v2/ginkgo" None
     initial).1 = Ok tt
  /\ spawned (trace (go_install manifest_knows_nothing_env
                       "github.com/onsi/ginkgo/v2/ginkgo" None initial).2)
     = [manifest_query "github.com/onsi/ginkgo/v2";
        manifest_query "github.com/onsi/ginkgo";
        ["go"; "install"; "github.com/onsi/ginkgo/v2/ginkgo@"]].
Proof. by vm_compute. Qed.

(** C4. Failing input: [go_install] of [example.com/org/repo/tool] without
    a version when the manifest has that complete path as a module at v1.2.3
    and its parent as a module at v0.9.0.  The complete path is not probed:
    the first and only lookup is for the parent, and its version is the one
    installed. *)
Theorem complete_path_is_not_probed :
  nested_modules (manifest_query "example.com/org/repo/tool") = Exited 0 "v1.2.3"
  /\ (go_install nested_modules_env "example.com/org/repo/tool" None initial).1 = Ok tt
  /\ spawned (trace (go_install nested_modules_env "example.com/org/repo/tool" None
                       initial).2)
     = [manifest_query "example.com/org/repo";
        ["go"; "install"; "example.com/org/repo/tool@v0.9.0"]].
Proof. by vm_compute. Qed.

(** ** dev/setup.py: the installation directory *)

(** The value of [GOBIN] is tested as a [str] against a set of [Path]
    objects, which never holds. *)
Lemma gobin_never_member (bin : string) (path : gset Path.t) :
  member (AsStr bin) path = false.
Proof. reflexivity. Qed.

(** The first candidate is chosen, with no effect, when it is on the search
    path. *)
Lemma select_project_local env st path :
  getenv env "PATH" = Some path ->
  Path.parent (Path.parent (Path.parent (Path.of_string (module_file env))))
    // ".local" // "bin"
    ∈ (list_to_set (Path.of_string <$> Str.split ":" path) : gset Path.t) ->
  select_bin_directory env st
  = (Ok (Path.to_string
           (Path.parent (Path.parent (Path.parent (Path.of_string (module_file env))))
              // ".local" // "bin")), st).
Proof.
  intros Hpath Hin. unfold select_bin_directory. rewrite Hpath.
  unfold member. by rewrite (bool_decide_eq_true_2 _ Hin).
Qed.

(** C7. Failing input: the search path is [/home/dev/go/bin:/usr/bin] and
    [go env GOBIN] prints [/home/dev/go/bin].  That directory is on the search
    path and is the first candidate that is, yet the selection raises the
    "no suitable binaries directory" error. *)
Theorem gobin_on_path_is_not_selected :
  Path.of_string "/home/dev/go/bin"
    ∈ (list_to_set (Path.of_string <$> Str.split ":" "/home/dev/go/bin:/usr/bin")
        : gset Path.t)
  /\ (go_env gobin_on_path_env "GOBIN" initial).1 = Ok "/home/dev/go/bin"
  /\ (select_bin_directory gobin_on_path_env initial).1
     = Raise (Exception "Failed to select a suitable binaries directory").
Proof.
  split; [|by vm_compute].
  apply (bool_decide_eq_true_1 _). by vm_compute.
Qed.

(** ** Which events a computation can add *)

Lemma adds_only_mono {A} (P Q : event -> Prop) (m : M A) :
  (forall e, P e -> Q e) -> adds_only P m -> adds_only Q m.
Proof.
  intros HPQ Hm st. destruct (Hm st) as (evs & Htr & Hall).
  exists evs. split; [done|]. by eapply Forall_impl.
Qed.

Lemma adds_only_ret {A} P (a : A) : adds_only P (mret a : M A).
Proof. intros st. exists []. by rewrite app_nil_r. Qed.

Lemma adds_only_raise {A} P e : adds_only P (raise e : M A).
Proof. intros st. exists []. by rewrite app_nil_r. Qed.

Lemma adds_only_get_trace P : adds_only P get_trace.
Proof. intros st. exists []. by rewrite app_nil_r. Qed.

Lemma adds_only_cache_lookup P var : adds_only P (cache_lookup var).
Proof. intros st. exists []. by rewrite app_nil_r. Qed.

Lemma adds_only_cache_store P var value : adds_only P (cache_store var value).
Proof. intros st. exists []. simpl. by rewrite app_nil_r. Qed.

Lemma adds_only_emit (P : event -> Prop) e : P e -> adds_only P (emit e).
Proof. intros He st. exists [e]. split; [done|]. by constructor. Qed.

Lemma adds_only_bind {A B} P (m : M A) (f : A -> M B) :
  adds_only P m -> (forall a, adds_only P (f a)) -> adds_only P (m ≫= f).
Proof.
  intros Hm Hf st. destruct (Hm st) as (evs1 & Htr1 & Hall1).
  unfold mbind, M_bind. destruct (m st) as [[a|e] st1]; simpl in *.
  - destruct (Hf a st1) as (evs2 & Htr2 & Hall2).
    exists (evs1 ++ evs2). rewrite Htr2, Htr1, app_assoc. split; [done|].
    by apply Forall_app.
  - by exists evs1.
Qed.

Lemma adds_only_finally {A} P (body : M A) (cleanup : M unit) :
  adds_only P body -> adds_only P cleanup -> adds_only P (finally body cleanup).
Proof.
  intros Hb Hc st. destruct (Hb st) as (evs1 & Htr1 & Hall1).
  unfold finally. destruct (body st) as [r st1]; simpl in *.
  destruct (Hc st1) as (evs2 & Htr2 & Hall2).
  exists (evs1 ++ evs2). split; [|by apply Forall_app].
  destruct (cleanup st1) as [[[]|e] st2]; simpl in *;
    by rewrite Htr2, Htr1, app_assoc.
Qed.

Lemma keeps_cache_bind {A B} (m : M A) (f : A -> M B) :
  keeps_cache m -> (forall a, keeps_cache (f a)) -> keeps_cache (m ≫= f).
Proof.
  intros Hm Hf st. specialize (Hm st).
  unfold mbind, M_bind. destruct (m st) as [[a|e] st1]; simpl in *; [|done].
  by rewrite Hf.
Qed.

Lemma keeps_cache_finally {A} (body : M A) (cleanup : M unit) :
  keeps_cache body -> keeps_cache cleanup -> keeps_cache (finally body cleanup).
Proof.
  intros Hb Hc st. specialize (Hb st). unfold finally.
  destruct (body st) as [r st1]; simpl in *. specialize (Hc st1).
  destruct (cleanup st1) as [[[]|e] st2]; simpl in *; congruence.
Qed.

Lemma subprocess_run_adds env args kw check capture :
  adds_only process_or_log (subprocess_run env args kw check capture).
Proof.
  unfold subprocess_run.
  apply adds_only_bind; [apply adds_only_get_trace|]. intros tr.
  apply adds_only_bind; [by apply adds_only_emit|]. intros _.
  destruct (subprocess env tr args kw capture) as [code out|e];
    [|apply adds_only_raise].
  destruct (check && negb (code =? 0));
    [apply adds_only_raise|apply adds_only_ret].
Qed.

Lemma run_adds env args kw : adds_only process_or_log (run env args kw).
Proof.
  unfold run, logging.
  apply adds_only_bind; [by apply adds_only_emit|]. intros _.
  apply adds_only_bind; [apply subprocess_run_adds|]. intros [code out].
  by apply adds_only_emit.
Qed.

Lemma eval_adds env args : adds_only process_or_log (eval env args).
Proof.
  unfold eval, logging.
  apply adds_only_bind; [by apply adds_only_emit|]. intros _.
  apply adds_only_bind; [apply subprocess_run_adds|]. intros [code out].
  apply adds_only_bind; [by apply adds_only_emit|]. intros _.
  apply adds_only_bind; [by apply adds_only_emit|]. intros _.
  apply adds_only_ret.
Qed.

Lemma go_env_adds env var : adds_only process_or_log (go_env env var).
Proof.
  unfold go_env.
  apply adds_only_bind; [apply adds_only_cache_lookup|]. intros [output|].
  - apply adds_only_ret.
  - apply adds_only_bind; [apply eval_adds|]. intros [code output].
    destruct (negb (code =? 0)); [apply adds_only_raise|].
    apply adds_only_bind; [apply adds_only_cache_store|]. intros _.
    apply adds_only_ret.
Qed.

Lemma select_bin_directory_adds env :
  adds_only process_or_log (select_bin_directory env).
Proof.
  unfold select_bin_directory.
  destruct (getenv env "PATH") as [path|]; [|apply adds_only_raise].
  destruct (member _ _); [apply adds_only_ret|].
  destruct (member _ _); [apply adds_only_ret|].
  apply adds_only_bind; [apply go_env_adds|]. intros bin.
  destruct (member _ _); [apply adds_only_ret|].
  apply adds_only_bind; [apply go_env_adds|]. intros root.
  destruct (member _ _); [apply adds_only_ret|apply adds_only_raise].
Qed.

(** ** dev/command.py and [go_env]: what a call leaves behind *)

Lemma eval_not_started env args st e :
  subprocess env
    (trace st ++ [Log DEBUG ("Evaluating command '" +:+ command_line args +:+ "'")])
    args no_kwargs true = NotStarted e ->
  eval env args st
  = (Raise e,
     extended st [Log DEBUG ("Evaluating command '" +:+ command_line args +:+ "'");
                  Spawn args no_kwargs true]).
Proof.
  intros H. unfold eval, subprocess_run, logging, emit, get_trace, raise, extended.
  unfold mbind, M_bind, mret, M_ret.
  cbn -[String.append Str.of_Z Str.strip command_line].
  fold (command_line args). rewrite H.
  cbn -[String.append Str.of_Z Str.strip command_line].
  by rewrite <- !app_assoc.
Qed.

Lemma eval_spawns_once env args st :
  exists evs,
    (eval env args st).2 = extended st evs
    /\ spawned evs = [args] /\ Forall process_or_log evs.
Proof.
  destruct (subprocess env
    (trace st ++ [Log DEBUG ("Evaluating command '" +:+ command_line args +:+ "'")])
    args no_kwargs true) as [code out|e] eqn:H.
  - rewrite (eval_exited _ _ _ _ _ H). eexists; split; [reflexivity|].
    split; [done|]. by repeat constructor.
  - rewrite (eval_not_started _ _ _ _ H). eexists; split; [reflexivity|].
    split; [done|]. by repeat constructor.
Qed.

Lemma go_env_hit env var st output :
  go_env_cache st !! var = Some output ->
  go_env env var st = (Ok output, st).
Proof.
  intros H. unfold go_env, cache_lookup, mbind, M_bind. by rewrite H.
Qed.

Lemma go_env_miss env var st :
  go_env_cache st !! var = None ->
  go_env env var st
  = match eval env ["go"; "env"; var] st with
    | (Ok (code, output), st1) =>
        if negb (code =? 0)
        then (Raise (Exception ("Failed to get Go environment variable '"
                                  +:+ var +:+ "'")), st1)
        else (Ok output, {| trace := trace st1;
                            go_env_cache := <[var:=output]> (go_env_cache st1) |})
    | (Raise e, st1) => (Raise e, st1)
    end.
Proof.
  intros H. unfold go_env, cache_lookup. unfold mbind at 1. unfold M_bind at 1.
  rewrite H. unfold mbind, M_bind.
  destruct (eval env ["go"; "env"; var] st) as [[[code output]|e] st1]; [|done].
  by destruct (negb (code =? 0)).
Qed.

(** A call of [go_env] spawns [go env var] at most once and nothing else. *)
Lemma go_env_spawns env var st :
  exists evs,
    trace (go_env env var st).2 = trace st ++ evs
    /\ Forall process_or_log evs
    /\ (spawned evs = [] \/ spawned evs = [["go"; "env"; var]]).
Proof.
  destruct (go_env_cache st !! var) as [output|] eqn:Hc.
  - rewrite (go_env_hit _ _ _ _ Hc). exists []. simpl. rewrite app_nil_r. auto.
  - rewrite (go_env_miss _ _ _ Hc).
    destruct (eval_spawns_once env ["go"; "env"; var] st) as (evs & Hst & Hs & Hall).
    exists evs.
    destruct (eval env ["go"; "env"; var] st) as [[[code output]|e] st1];
      simpl in Hst; subst st1; [destruct (negb (code =? 0))|]; simpl; auto.
Qed.

(** X1. A value [go_env] has returned is remembered: asking for the same
    variable again, in the state the first call left, returns the same value
    without spawning [go env] and without any other effect. *)
Theorem go_env_memoised env var st output st' :
  go_env env var st = (Ok output, st') ->
  go_env env var st' = (Ok output, st').
Proof.
  intros H. apply go_env_hit.
  destruct (go_env_cache st !! var) as [cached|] eqn:Hc.
  - rewrite (go_env_hit _ _ _ _ Hc) in H. by injection H as <- <-.
  - rewrite (go_env_miss _ _ _ Hc) in H.
    destruct (eval env ["go"; "env"; var] st) as [[[code out]|e] st1]; [|done].
    destruct (negb (code =? 0)); [done|].
    injection H as <- <-. simpl. apply lookup_insert_eq.
Qed.

Lemma go_env_memoised_witness :
  go_env gobin_on_path_env "GOROOT"
    (go_env gobin_on_path_env "GOROOT" initial).2
  = (Ok "/usr/lib/golang", (go_env gobin_on_path_env "GOROOT" initial).2).
Proof.
  apply (go_env_memoised gobin_on_path_env "GOROOT" initial).
  by vm_compute.
Defined.

(** X2. A failed query is not remembered.  When the variable is not in the
    memo table and [go env var] exits with a non-zero status, [go_env] raises
    "Failed to get Go environment variable 'var'" and the memo table is the
    one it started with, so the next call spawns the command again. *)
Theorem go_env_failure_not_cached env var st code out :
  go_env_cache st !! var = None ->
  code <> 0 ->
  subprocess env
    (trace st ++ [Log DEBUG ("Evaluating command '"
                               +:+ command_line ["go"; "env"; var] +:+ "'")])
    ["go"; "env"; var] no_kwargs true = Exited code out ->
  go_env env var st
  = (Raise (Exception ("Failed to get Go environment variable '" +:+ var +:+ "'")),
     extended st (eval_events ["go"; "env"; var] code out)).
Proof.
  intros Hc Hcode H. rewrite (go_env_miss _ _ _ Hc), (eval_exited _ _ _ _ _ H).
  by destruct (Z.eqb_spec code 0).
Qed.

Lemma go_env_failure_not_cached_witness :
  go_env go_env_fails_env "GOOS" initial
  = (Raise (Exception ("Failed to get Go environment variable '" +:+ "GOOS" +:+ "'")),
     extended initial (eval_events ["go"; "env"; "GOOS"] 1 EmptyString)).
Proof.
  apply (go_env_failure_not_cached go_env_fails_env "GOOS" initial 1 EmptyString).
  - reflexivity.
  - lia.
  - reflexivity.
Defined.

(** ** dev/setup.py: more on the installation directory *)

Ltac solve_sublist :=
  solve [repeat first [apply sublist_nil_l | apply sublist_skip | apply sublist_cons]].

(** X3. Selecting the installation directory never touches the filesystem:
    whatever the environment, the only events it adds are log records and the
    spawning of processes, and the processes are at most [go env GOBIN]
    followed by [go env GOROOT]. *)
Theorem select_bin_directory_only_asks_go env st :
  exists evs,
    trace (select_bin_directory env st).2 = trace st ++ evs
    /\ Forall process_or_log evs
    /\ spawned evs `sublist_of` [["go"; "env"; "GOBIN"]; ["go"; "env"; "GOROOT"]].
Proof.
  unfold select_bin_directory.
  assert (Hnil : forall (r : result string),
    exists evs, trace (r, st).2 = trace st ++ evs /\ Forall process_or_log evs
      /\ spawned evs `sublist_of` [["go"; "env"; "GOBIN"]; ["go"; "env"; "GOROOT"]]).
  { intros r. exists []. simpl. rewrite app_nil_r.
    split; [done|]. split; [done|]. solve_sublist. }
  destruct (getenv env "PATH") as [path|]; [|apply Hnil].
  destruct (member _ _); [apply Hnil|].
  destruct (member _ _); [apply Hnil|].
  destruct (go_env_spawns env "GOBIN" st) as (evs1 & Htr1 & Hall1 & Hs1).
  unfold mbind at 1. unfold M_bind at 1.
  destruct (go_env env "GOBIN" st) as [[bin|e] st1]; simpl in Htr1.
  - change (member (AsStr bin) (list_to_set (Path.of_string <$> Str.split ":" path)))
      with false. cbv iota.
    destruct (go_env_spawns env "GOROOT" st1) as (evs2 & Htr2 & Hall2 & Hs2).
    assert (Hsub : spawned (evs1 ++ evs2)
              `sublist_of` [["go"; "env"; "GOBIN"]; ["go"; "env"; "GOROOT"]]).
    { rewrite spawned_app.
      destruct Hs1 as [-> | ->], Hs2 as [-> | ->]; simpl; solve_sublist. }
    unfold mbind, M_bind.
    destruct (go_env env "GOROOT" st1) as [[root|e] st2]; simpl in Htr2.
    + exists (evs1 ++ evs2).
      destruct (member _ _); simpl; rewrite Htr2, Htr1, app_assoc;
        (split; [done|]); (split; [by apply Forall_app|done]).
    + exists (evs1 ++ evs2). simpl. rewrite Htr2, Htr1, app_assoc.
      split; [done|]. split; [by apply Forall_app|done].
  - exists evs1. simpl. split; [done|]. split; [done|].
    destruct Hs1 as [-> | ->]; solve_sublist.
Qed.

(** X4. A directory that [select_bin_directory] returns is always the text of
    one of the [Path] objects built from the entries of [PATH]. *)
Theorem select_bin_directory_returns_path_entry env st d st' :
  select_bin_directory env st = (Ok d, st') ->
  exists path p,
    getenv env "PATH" = Some path
    /\ p ∈ search_path path
    /\ d = Path.to_string p.
Proof.
  unfold select_bin_directory, search_path.
  destruct (getenv env "PATH") as [path|]; [|done].
  intros H. exists path.
  destruct (member (AsPath _) _) eqn:H1.
  { injection H as <- <-. eexists; split; [done|]. split; [|done].
    by apply bool_decide_eq_true_1 in H1. }
  destruct (member (AsPath _) _) eqn:H2 in H.
  { injection H as <- <-. eexists; split; [done|]. split; [|done].
    by apply bool_decide_eq_true_1 in H2. }
  unfold mbind at 1 in H. unfold M_bind at 1 in H.
  destruct (go_env env "GOBIN" st) as [[bin|e] st1]; [|done].
  change (member (AsStr bin) (list_to_set (Path.of_string <$> Str.split ":" path)))
    with false in H. cbv iota in H.
  unfold mbind, M_bind in H.
  destruct (go_env env "GOROOT" st1) as [[root|e] st2]; [|done].
  destruct (member (AsPath _) _) eqn:H3 in H; [|done].
  injection H as <- <-. eexists; split; [done|]. split; [|done].
  by apply bool_decide_eq_true_1 in H3.
Qed.

Lemma select_bin_directory_returns_path_entry_witness :
  exists path p,
    getenv repository_bin_env "PATH" = Some path
    /\ p ∈ search_path path
    /\ "/work/oran-o2ims/bin" = Path.to_string p.
Proof.
  apply (select_bin_directory_returns_path_entry repository_bin_env initial
           "/work/oran-o2ims/bin" initial).
  by vm_compute.
Defined.

(** X5. Without a [PATH] variable in the environment the selection raises
    [AttributeError], not the "no suitable binaries directory" error, before
    anything is spawned or logged. *)
Theorem select_bin_directory_without_path env st :
  getenv env "PATH" = None ->
  select_bin_directory env st = (Raise AttributeError, st).
Proof. intros H. unfold select_bin_directory. by rewrite H. Qed.

Lemma select_bin_directory_without_path_witness :
  select_bin_directory no_path_env initial = (Raise AttributeError, initial).
Proof.
  apply (select_bin_directory_without_path no_path_env initial). reflexivity.
Defined.

(** X6. The two directories of the repository come first.  When
    [.local/bin] beside the repository or [bin] inside it is on the search
    path, the result is the first of the two that is, and the toolchain is not
    asked: the state is untouched. *)
Theorem select_bin_directory_prefers_repository env st path :
  let project := Path.parent (Path.parent (Path.of_string (module_file env))) in
  let local := Path.parent project // ".local" // "bin" in
  let bin := project // "bin" in
  getenv env "PATH" = Some path ->
  local ∈ search_path path \/ bin ∈ search_path path ->
  select_bin_directory env st
  = (Ok (Path.to_string (if decide (local ∈ search_path path) then local else bin)),
     st).
Proof.
  intros project local bin Hpath Hin.
  unfold select_bin_directory, search_path in *. rewrite Hpath.
  fold project. fold local. fold bin. unfold member.
  destruct (decide (local ∈ list_to_set (Path.of_string <$> Str.split ":" path)))
    as [Hl|Hl].
  - by rewrite (bool_decide_eq_true_2 _ Hl).
  - rewrite (bool_decide_eq_false_2 _ Hl).
    destruct Hin as [Hin|Hin]; [done|].
    by rewrite (bool_decide_eq_true_2 _ Hin).
Qed.

Lemma select_bin_directory_prefers_repository_witness :
  select_bin_directory repository_bin_env initial
  = (Ok "/work/oran-o2ims/bin", initial).
Proof.
  apply (select_bin_directory_prefers_repository repository_bin_env initial
           "/usr/bin:/work/oran-o2ims/bin").
  - reflexivity.
  - right. apply (bool_decide_eq_true_1 _). by vm_compute.
Defined.

(** X7. When neither directory of the repository is on the search path the
    outcome depends on [GOROOT] alone.  If both [go env] queries succeed,
    [GOROOT/bin] is returned when it is on the search path and the "no
    suitable binaries directory" error is raised otherwise; what [GOBIN] is
    makes no difference. *)
Theorem select_bin_directory_falls_back_to_goroot env st path gobin st1 root st2 :
  let project := Path.parent (Path.parent (Path.of_string (module_file env))) in
  getenv env "PATH" = Some path ->
  Path.parent project // ".local" // "bin" ∉ search_path path ->
  project // "bin" ∉ search_path path ->
  go_env env "GOBIN" st = (Ok gobin, st1) ->
  go_env env "GOROOT" st1 = (Ok root, st2) ->
  select_bin_directory env st
  = (if decide (Path.of_string root // "bin" ∈ search_path path)
     then Ok (Path.to_string (Path.of_string root // "bin"))
     else Raise (Exception "Failed to select a suitable binaries directory"),
     st2).
Proof.
  intros project Hpath H1 H2 Hgobin Hgoroot.
  unfold select_bin_directory, search_path in *. rewrite Hpath.
  fold project. unfold member at 1 2.
  rewrite (bool_decide_eq_false_2 _ H1), (bool_decide_eq_false_2 _ H2).
  rewrite (bind_ok _ _ _ _ _ Hgobin).
  change (member (AsStr gobin) (list_to_set (Path.of_string <$> Str.split ":" path)))
    with false. cbv iota.
  rewrite (bind_ok _ _ _ _ _ Hgoroot). unfold member.
  destruct (decide (Path.of_string root // "bin"
                      ∈ list_to_set (Path.of_string <$> Str.split ":" path)))
    as [Hr|Hr].
  - by rewrite (bool_decide_eq_true_2 _ Hr).
  - by rewrite (bool_decide_eq_false_2 _ Hr).
Qed.

Lemma select_bin_directory_falls_back_to_goroot_witness :
  select_bin_directory goroot_on_path_env initial
  = (if decide (Path.of_string "/usr/lib/golang" // "bin"
                  ∈ search_path "/usr/lib/golang/bin/:/usr/bin")
     then Ok (Path.to_string (Path.of_string "/usr/lib/golang" // "bin"))
     else Raise (Exception "Failed to select a suitable binaries directory"),
     (go_env goroot_on_path_env "GOROOT"
        (go_env goroot_on_path_env "GOBIN" initial).2).2).
Proof.
  apply (select_bin_directory_falls_back_to_goroot goroot_on_path_env initial
           "/usr/lib/golang/bin/:/usr/bin" "/home/dev/go/bin"
           (go_env goroot_on_path_env "GOBIN" initial).2
           "/usr/lib/golang").
  - reflexivity.
  - apply (bool_decide_eq_false_1 _). by vm_compute.
  - apply (bool_decide_eq_false_1 _). by vm_compute.
  - by vm_compute.
  - by vm_compute.
Defined.

(** ** Splitting and joining *)

Lemma append_cons c (a b : string) : String c a +:+ b = String c (a +:+ b).
Proof. reflexivity. Qed.

Lemma append_nil_r (a : string) : a +:+ EmptyString = a.
Proof.
  induction a as [|c a IH]; [done|]. by rewrite append_cons, IH.
Qed.

Lemma rev_app_append (a b c : string) :
  String.rev_app a b +:+ c = String.rev_app a (b +:+ c).
Proof.
  revert b. induction a as [|x a IH]; intros b; [done|].
  simpl. by rewrite IH.
Qed.

Lemma rev_cons_append c (cur s : string) :
  String.rev (String c cur) +:+ s = String.rev cur +:+ String c s.
Proof. unfold String.rev. simpl. by rewrite !rev_app_append. Qed.

Lemma split_go_not_nil sep cur s : Str.split_go sep cur s <> [].
Proof.
  revert cur. induction s as [|c s IH]; intros cur; simpl; [done|].
  destruct (Ascii.eqb c sep); [done|apply IH].
Qed.

Lemma join_cons sep x l :
  l <> [] -> Str.join sep (x :: l) = x +:+ sep +:+ Str.join sep l.
Proof. by destruct l. Qed.

Lemma join_split_go sep cur s :
  Str.join (String sep EmptyString) (Str.split_go sep cur s) = String.rev cur +:+ s.
Proof.
  revert cur. induction s as [|c s IH]; intros cur.
  - simpl. by rewrite append_nil_r.
  - simpl. destruct (Ascii.eqb_spec c sep) as [->|Hne].
    + rewrite join_cons by apply split_go_not_nil. rewrite IH.
      by rewrite append_cons.
    + by rewrite IH, rev_cons_append.
Qed.

(** Joining what [split] returned gives the string back. *)
Lemma join_split sep s :
  Str.join (String sep EmptyString) (Str.split sep s) = s.
Proof. unfold Str.split. by rewrite join_split_go. Qed.

Lemma join_app sep (l1 l2 : list string) :
  l1 <> [] -> l2 <> [] ->
  Str.join sep (l1 ++ l2) = Str.join sep l1 +:+ sep +:+ Str.join sep l2.
Proof.
  intros H1 H2. induction l1 as [|x l1 IH]; [done|].
  destruct l1 as [|y l1].
  - simpl. by destruct l2.
  - change ((x :: y :: l1) ++ l2) with (x :: ((y :: l1) ++ l2)).
    rewrite join_cons by done. rewrite IH by done.
    rewrite (join_cons sep x (y :: l1)) by done.
    by rewrite !append_assoc.
Qed.

Lemma split_go_no_sep sep cur s :
  Str.all (fun c => negb (Ascii.eqb c sep)) s = true ->
  Str.split_go sep cur s = [String.rev cur +:+ s].
Proof.
  revert cur. induction s as [|c s IH]; intros cur H; simpl in *.
  - by rewrite append_nil_r.
  - apply andb_prop in H as [Hc Hs].
    destruct (Ascii.eqb c sep); [done|].
    by rewrite IH, rev_cons_append.
Qed.

Lemma digit_is_not_slash c : Str.is_digit c = true -> Ascii.eqb c "/" = false.
Proof.
  intros H. destruct (Ascii.eqb_spec c "/") as [->|]; [done|done].
Qed.

Lemma digits_then_end_no_slash seen s :
  digits_then_end seen s = true ->
  Str.all (fun c => negb (Ascii.eqb c "/")) s = true.
Proof.
  revert seen. induction s as [|c s IH]; intros seen H; simpl in *; [done|].
  destruct (Str.is_digit c) eqn:Hd.
  - rewrite (digit_is_not_slash _ Hd). simpl. by eapply IH.
  - apply andb_prop in H as [H Hs]. apply andb_prop in H as [_ Hc].
    apply bool_decide_eq_true_1 in Hs. subst s.
    destruct (Ascii.eqb_spec c Str.newline) as [->|]; [done|done].
Qed.

Lemma version_segment_splits_to_itself name :
  is_version_segment name = true -> Str.split "/" name = [name].
Proof.
  intros H. unfold Str.split. rewrite split_go_no_sep; [done|].
  destruct name as [|c s]; [done|]. simpl in H.
  destruct (Ascii.eqb_spec c "v") as [->|Hne].
  - simpl. by eapply digits_then_end_no_slash.
  - destruct c as [[] [] [] [] [] [] [] []]; done.
Qed.

(** ** dev/setup.py: the name of the binary *)





(** X9. A tool path that consists of a version suffix alone (v2, say) makes
    [go_install] fail with [IndexError] while it works out the name of the
    binary, before it looks for anything or spawns anything, with or without
    an explicit version. *)
Theorem go_install_bare_version_segment env tool version st :
  is_version_segment tool = true ->
  go_install env tool version st = (Raise IndexError, st).
Proof.
  intros H. unfold go_install.
  rewrite (version_segment_splits_to_itself _ H).
  unfold binary_name. simpl. by rewrite H.
Qed.

Lemma go_install_bare_version_segment_witness :
  go_install manifest_knows_nothing_env "v2" (Some "v2.0.0") initial
  = (Raise IndexError, initial).
Proof.
  apply (go_install_bare_version_segment manifest_knows_nothing_env "v2"
           (Some "v2.0.0") initial).
  reflexivity.
Defined.

(** ** dev/setup.py: the lookup loop *)

Lemma range_down_nil (start stop : nat) :
  (start <= stop)%nat -> range_down start stop = [].
Proof.
  intros H. unfold range_down. by replace (start - stop)%nat with 0%nat by lia.
Qed.

Lemma range_down_cons (start stop : nat) :
  (stop < start)%nat ->
  range_down start stop = start :: range_down (start - 1) stop.
Proof.
  intros H. unfold range_down.
  replace (start - stop)%nat with (S (start - 1 - stop)) by lia.
  rewrite seq_S, reverse_snoc. f_equal. lia.
Qed.

(** X10. For a path of at most three segments the loop body never runs.
    When such a tool is not installed and no version is given, [go_install]
    raises "Failed to find version for tool" without querying the manifest
    or spawning anything. *)
Theorem go_install_short_path_never_looks_up env tool name st :
  (length (Str.split "/" tool) <= 3)%nat ->
  binary_name (Str.split "/" tool) = Ok name ->
  which env (trace st) name = None ->
  go_install env tool None st
  = (Raise (Exception ("Failed to find version for tool '" +:+ tool +:+ "'")), st).
Proof.
  intros Hlen Hname Hwhich. unfold go_install. rewrite Hname.
  rewrite (bind_ok get_trace _ st (trace st) st eq_refl). rewrite Hwhich.
  rewrite range_down_nil by lia. done.
Qed.

Lemma go_install_short_path_never_looks_up_witness :
  go_install manifest_knows_nothing_env "go.uber.org/mock/mockgen" None initial
  = (Raise (Exception ("Failed to find version for tool '"
                         +:+ "go.uber.org/mock/mockgen" +:+ "'")), initial).
Proof.
  apply (go_install_short_path_never_looks_up manifest_knows_nothing_env
           "go.uber.org/mock/mockgen" "mockgen" initial).
  - vm_compute. lia.
  - reflexivity.
  - reflexivity.
Defined.

Lemma probe_spawns env segments indices version st :
  exists evs n,
    (probe env segments indices version st).2 = extended st evs
    /\ Forall process_or_log evs
    /\ spawned evs
       = take n ((fun i => manifest_query (Str.join "/" (take i segments)))
                   <$> indices).
Proof.
  revert version st.
  induction indices as [|i indices IH]; intros version st.
  - exists [], 0%nat. unfold extended. simpl. rewrite app_nil_r.
    split; [by destruct st|done].
  - destruct (subprocess env
      (trace st ++ [Log DEBUG ("Evaluating command '"
         +:+ command_line (manifest_query (Str.join "/" (take i segments))) +:+ "'")])
      (manifest_query (Str.join "/" (take i segments))) no_kwargs true)
      as [code out|e] eqn:H.
    + destruct (Z.eq_dec code 0) as [->|Hcode].
      * rewrite (probe_stops_at_success _ _ _ _ _ _ _ H).
        eexists _, 1%nat. split; [reflexivity|]. split; [by repeat constructor|done].
      * rewrite (probe_continues_after_failure _ _ _ _ _ _ _ _ Hcode H).
        destruct (IH (Some (Str.strip out))
                    (extended st (eval_events
                       (manifest_query (Str.join "/" (take i segments))) code out)))
          as (evs & n & -> & Hall & Hs).
        eexists _, (S n). rewrite extended_extended. split; [reflexivity|].
        split; [by repeat constructor|].
        rewrite spawned_app, Hs. done.
    + cbn [probe]. fold (manifest_query (Str.join "/" (take i segments))).
      rewrite (bind_raise _ _ _ _ _ (eval_not_started _ _ _ _ H)).
      eexists _, 1%nat. split; [reflexivity|]. split; [by repeat constructor|done].
Qed.

Lemma run_frame env args kw st :
  exists evs,
    (run env args kw st).2 = extended st evs
    /\ Forall process_or_log evs /\ spawned evs = [args].
Proof.
  destruct (subprocess env
    (trace st ++ [Log DEBUG ("Running command '" +:+ command_line args +:+ "'")])
    args kw false) as [code out|e] eqn:H.
  - rewrite (run_exited _ _ _ _ _ _ H). eexists; split; [reflexivity|].
    split; [by repeat constructor|done].
  - rewrite (run_not_started _ _ _ _ _ H). eexists; split; [reflexivity|].
    split; [by repeat constructor|done].
Qed.

Lemma extended_nil st : extended st [] = st.
Proof. unfold extended. rewrite app_nil_r. by destruct st. Qed.

(** X11. Without an explicit version, the processes [go_install] spawns are
    an initial run of the manifest queries for the prefixes of the path, from
    the one that drops the last segment down to the one of three segments, in
    that order, followed by at most one [go install] of the tool.  It touches
    no file and leaves the memo table of [go_env] alone. *)
Theorem go_install_lookups_in_order env tool st :
  exists evs n tail,
    (go_install env tool None st).2 = extended st evs
    /\ Forall process_or_log evs
    /\ spawned evs = take n (lookups (Str.split "/" tool)) ++ tail
    /\ (tail = [] \/ exists version, tail = [["go"; "install"; tool +:+ "@" +:+ version]]).
Proof.
  unfold go_install, lookups.
  destruct (binary_name (Str.split "/" tool)) as [name|e].
  2:{ exists [], 0%nat, []. unfold raise. simpl. rewrite extended_nil. auto. }
  rewrite (bind_ok get_trace _ st (trace st) st eq_refl).
  destruct (which env (trace st) name) as [binary|].
  { eexists _, 0%nat, []. split; [reflexivity|]. split; [by repeat constructor|].
    auto. }
  destruct (probe_spawns env (Str.split "/" tool)
              (range_down (length (Str.split "/" tool) - 1) 2) None st)
    as (evs & n & Hst & Hall & Hs).
  destruct (probe env (Str.split "/" tool)
              (range_down (length (Str.split "/" tool) - 1) 2) None st)
    as [[[version|]|e] st1] eqn:Hp; simpl in Hst; subst st1.
  - erewrite bind_ok; [|rewrite (bind_ok _ _ _ _ _ Hp); reflexivity].
    match goal with |- context [ run env ?args ?kw ?s ] =>
      destruct (run_frame env args kw s) as (evs2 & -> & Hall2 & Hs2) end.
    unfold logging, emit, mbind, M_bind, mret, M_ret, extended.
    cbn [trace go_env_cache fst snd].
    eexists _, n, _. rewrite <- !app_assoc. split; [reflexivity|].
    split.
    { apply Forall_app. split; [done|]. apply Forall_app. split; [|done].
      by repeat constructor. }
    rewrite !spawned_app, Hs, Hs2. simpl. split; [reflexivity|]. right. by eexists.
  - erewrite bind_raise; [|rewrite (bind_ok _ _ _ _ _ Hp); reflexivity].
    exists evs, n, []. rewrite app_nil_r. auto.
  - erewrite bind_raise; [|rewrite (bind_raise _ _ _ _ _ Hp); reflexivity].
    exists evs, n, []. rewrite app_nil_r. auto.
Qed.

(** X12. When the first query, for the path without its last segment,
    succeeds, that is the only query: [go_install] then runs [go install]
    with the tool followed by an at sign and the version the query printed,
    stripped of surrounding white space.  The output of the query is ASCII
    text, on which [Str.strip] is [str.strip]. *)
Theorem go_install_uses_first_successful_lookup env tool name st out :
  let segments := Str.split "/" tool in
  let package := Str.join "/" (take (length segments - 1) segments) in
  ascii_text out ->
  (4 <= length segments)%nat ->
  binary_name segments = Ok name ->
  which env (trace st) name = None ->
  subprocess env
    (trace st ++ [Log DEBUG ("Evaluating command '"
                               +:+ command_line (manifest_query package) +:+ "'")])
    (manifest_query package) no_kwargs true = Exited 0 out ->
  exists evs,
    (go_install env tool None st).2 = extended st evs
    /\ spawned evs
       = [manifest_query package;
          ["go"; "install"; tool +:+ "@" +:+ Str.strip out]].
Proof.
  intros segments package _ Hlen Hname Hwhich H.
  unfold go_install. fold segments. rewrite Hname.
  rewrite (bind_ok get_trace _ st (trace st) st eq_refl). rewrite Hwhich.
  rewrite range_down_cons by lia.
  erewrite bind_ok;
    [|rewrite (bind_ok _ _ _ _ _ (probe_stops_at_success _ _ _ _ _ _ _ H));
      reflexivity].
  fold package.
  match goal with |- context [ run env ?args ?kw ?s ] =>
    destruct (run_frame env args kw s) as (evs2 & -> & Hall2 & Hs2) end.
  unfold logging, emit, mbind, M_bind, mret, M_ret, extended.
  cbn [trace go_env_cache fst snd].
  eexists. rewrite <- !app_assoc. split; [reflexivity|].
  rewrite !spawned_app, Hs2. reflexivity.
Qed.

Lemma go_install_uses_first_successful_lookup_witness :
  exists evs,
    (go_install nested_modules_env "example.com/org/repo/tool" None initial).2
    = extended initial evs
    /\ spawned evs
       = [manifest_query
            (Str.join "/"
               (take (length (Str.split "/" "example.com/org/repo/tool") - 1)
                  (Str.split "/" "example.com/org/repo/tool")));
          ["go"; "install";
           "example.com/org/repo/tool" +:+ "@" +:+ Str.strip "v0.9.0"]].
Proof.
  apply (go_install_uses_first_successful_lookup nested_modules_env
           "example.com/org/repo/tool" "tool" initial "v0.9.0").
  - reflexivity.
  - vm_compute. lia.
  - reflexivity.
  - reflexivity.
  - reflexivity.
Defined.

(** X13. Every package the loop can query is a proper beginning of the tool
    path that stops right before a slash. *)
Theorem lookups_are_path_prefixes tool args :
  args ∈ lookups (Str.split "/" tool) ->
  exists package rest,
    args = manifest_query package /\ tool = package +:+ "/" +:+ rest.
Proof.
  unfold lookups. intros (i & -> & Hi)%list_elem_of_fmap.
  apply range_down_bounds in Hi.
  exists (Str.join "/" (take i (Str.split "/" tool))),
         (Str.join "/" (drop i (Str.split "/" tool))).
  split; [done|].
  rewrite <- (join_split "/" tool) at 1.
  rewrite <- (take_drop i (Str.split "/" tool)) at 1.
  apply join_app.
  - intros Hnil. apply (f_equal length) in Hnil.
    rewrite length_take in Hnil. simpl in Hnil. lia.
  - intros Hnil. apply (f_equal length) in Hnil.
    rewrite length_drop in Hnil. simpl in Hnil. lia.
Qed.

Lemma lookups_are_path_prefixes_witness :
  exists package rest,
    manifest_query "github.com/onsi/ginkgo" = manifest_query package
    /\ "github.com/onsi/ginkgo/v2/ginkgo" = package +:+ "/" +:+ rest.
Proof.
  apply (lookups_are_path_prefixes "github.com/onsi/ginkgo/v2/ginkgo"
           (manifest_query "github.com/onsi/ginkgo")).
  apply (bool_decide_eq_true_1 _). by vm_compute.
Defined.

(** ** dev/setup.py: downloaded binaries *)

(** X14. Granting the execution permission changes one bit.  When the mode
    of the file can be read, the mode passed to [os.chmod] has the
    user-execute bit (bit 6, octal 100) set and agrees with the old mode on
    every other bit; nothing else happens. *)
Theorem add_execution_permission_sets_one_bit env file mode st :
  st_mode env (trace st) file = Some mode ->
  exists mode',
    add_execution_permission env file st
    = (Ok tt, extended st [Chmod file mode'])
    /\ Z.testbit mode' 6 = true
    /\ forall n, n <> 6 -> Z.testbit mode' n = Z.testbit mode n.
Proof.
  intros H. exists (Z.lor mode S_IXUSR). split; [|split].
  - unfold add_execution_permission.
    rewrite (bind_ok get_trace _ st (trace st) st eq_refl). by rewrite H.
  - rewrite Z.lor_spec. change (Z.testbit S_IXUSR 6) with true.
    apply orb_true_r.
  - intros n Hn. rewrite Z.lor_spec.
    change S_IXUSR with (2 ^ 6).
    rewrite (Z.pow2_bits_eqb 6 n) by lia.
    destruct (Z.eqb_spec 6 n); [congruence|]. apply orb_false_r.
Qed.

Lemma add_execution_permission_sets_one_bit_witness :
  exists mode',
    add_execution_permission build_fails_env "/usr/bin/opm" initial
    = (Ok tt, extended initial [Chmod "/usr/bin/opm" mode'])
    /\ Z.testbit mode' 6 = true
    /\ forall n, n <> 6 -> Z.testbit mode' n = Z.testbit 420 n.
Proof.
  apply (add_execution_permission_sets_one_bit build_fails_env "/usr/bin/opm"
           420 initial).
  reflexivity.
Defined.

Lemma process_or_log_not_mkdtemp evs dir :
  Forall process_or_log evs -> Mkdtemp dir ∉ evs.
Proof.
  intros Hall Hin. rewrite Forall_forall in Hall. by apply (Hall _ Hin).
Qed.

(** X15. The temporary directory never outlives the installation of
    golangci-lint.  Whatever happens (a command that cannot be started
    included), if the installation created a temporary directory then the
    last thing it did was to remove that same directory. *)
Theorem install_golangci_lint_removes_tmp env V st :
  exists evs,
    trace (install_golangci_lint env V st).2 = trace st ++ evs
    /\ forall dir, Mkdtemp dir ∈ evs -> last evs = Some (Rmtree dir).
Proof.
  unfold install_golangci_lint.
  rewrite (bind_ok get_trace _ st (trace st) st eq_refl).
  destruct (which env (trace st) "golangci-lint") as [binary|].
  { eexists; split; [reflexivity|]. intros dir Hin.
    apply list_elem_of_singleton in Hin. done. }
  destruct (select_bin_directory_adds env st) as (evs1 & Htr1 & Hall1).
  destruct (select_bin_directory env st) as [[bin|e] st1] eqn:H1; simpl in Htr1.
  2:{ rewrite (bind_raise _ _ _ _ _ H1). exists evs1. split; [done|].
      intros dir Hin. by apply process_or_log_not_mkdtemp in Hin. }
  rewrite (bind_ok _ _ _ _ _ H1).
  destruct (go_env_adds env "GOOS" st1) as (evs2 & Htr2 & Hall2).
  destruct (go_env env "GOOS" st1) as [[platform|e] st2] eqn:H2; simpl in Htr2.
  2:{ rewrite (bind_raise _ _ _ _ _ H2). exists (evs1 ++ evs2).
      simpl. rewrite Htr2, Htr1, app_assoc. split; [done|].
      intros dir Hin. apply process_or_log_not_mkdtemp in Hin; [done|].
      by apply Forall_app. }
  rewrite (bind_ok _ _ _ _ _ H2).
  destruct (go_env_adds env "GOARCH" st2) as (evs3 & Htr3 & Hall3).
  destruct (go_env env "GOARCH" st2) as [[architecture|e] st3] eqn:H3;
    simpl in Htr3.
  2:{ rewrite (bind_raise _ _ _ _ _ H3). exists (evs1 ++ evs2 ++ evs3).
      simpl. rewrite Htr3, Htr2, Htr1, !app_assoc. split; [done|].
      intros dir Hin. apply process_or_log_not_mkdtemp in Hin; [done|].
      rewrite <- app_assoc. apply Forall_app. split; [done|]. by apply Forall_app. }
  rewrite (bind_ok _ _ _ _ _ H3).
  rewrite (bind_ok get_trace _ st3 (trace st3) st3 eq_refl).
  rewrite (bind_ok (emit _) _ st3 tt _ eq_refl).
  set (tmp := mkdtemp env (trace st3)).
  match goal with |- context [ finally ?b _ ] => set (body := b) end.
  assert (Hbody : adds_only (fun e => forall dir, e <> Mkdtemp dir) body).
  { unfold body, curl.
    pose proof (fun args kw =>
      adds_only_mono process_or_log (fun e => forall dir, e <> Mkdtemp dir)
        (run env args kw) (fun e He dir Heq => eq_ind e process_or_log He _ Heq)
        (run_adds env args kw)) as Hrun.
    apply adds_only_bind; [apply Hrun|]. intros _.
    apply adds_only_bind; [by apply adds_only_emit|]. intros _.
    apply adds_only_bind; [apply Hrun|]. intros _.
    apply Hrun. }
  match goal with |- context [ finally body ?c ?s ] =>
    destruct (Hbody s) as (evsb & Htrb & Hallb) end.
  unfold finally, emit at 1.
  match goal with |- context [ body ?s ] =>
    destruct (body s) as [r stb] end.
  simpl in Htrb. simpl.
  exists ((evs1 ++ evs2 ++ evs3 ++ [Mkdtemp tmp] ++ evsb) ++ [Rmtree tmp]).
  split.
  { rewrite Htrb, Htr3, Htr2, Htr1. by rewrite <- !app_assoc. }
  intros dir Hin. rewrite last_snoc. do 2 f_equal.
  rewrite !elem_of_app in Hin.
  destruct Hin as [[Hin|[Hin|[Hin|[Hin|Hin]]]]|Hin].
  - by apply process_or_log_not_mkdtemp in Hin.
  - by apply process_or_log_not_mkdtemp in Hin.
  - by apply process_or_log_not_mkdtemp in Hin.
  - apply list_elem_of_singleton in Hin. by injection Hin.
  - rewrite Forall_forall in Hallb. by destruct (Hallb _ Hin dir).
  - apply list_elem_of_singleton in Hin. done.
Qed.

(** ** dev/deploy.py and dev/install.py: the temporary file *)

Lemma with_temporary_file_closes {A} (P : event -> Prop) (body : M A) st :
  adds_only P body ->
  exists evs,
    trace (with_temporary_file body st).2
    = trace st ++ (OpenTemp :: evs) ++ [CloseTemp].
Proof.
  intros Hbody. unfold with_temporary_file.
  rewrite (bind_ok (emit OpenTemp) _ st tt _ eq_refl).
  match goal with |- context [ finally body ?c ?s ] =>
    destruct (Hbody s) as (evs & Htr & _) end.
  unfold finally, emit at 1.
  match goal with |- context [ body ?s ] => destruct (body s) as [r stb] end.
  simpl in *. exists evs. rewrite Htr. by rewrite <- !app_assoc.
Qed.

Lemma kustomize_into_kubectl_closes env dir kubectl st :
  exists evs,
    trace (kustomize_into_kubectl env dir kubectl st).2
    = trace st ++ (OpenTemp :: evs) ++ [CloseTemp].
Proof.
  unfold kustomize_into_kubectl.
  apply (with_temporary_file_closes (fun _ => True)).
  apply adds_only_bind;
    [apply (adds_only_mono process_or_log); [done|apply run_adds]|].
  intros _. apply adds_only_bind; [by apply adds_only_emit|]. intros _.
  apply (adds_only_mono process_or_log); [done|apply run_adds].
Qed.

Lemma kustomize_into_kubectl_closes_what_it_opens env dir kubectl :
  closes_what_it_opens (kustomize_into_kubectl env dir kubectl).
Proof.
  intros st. destruct (kustomize_into_kubectl_closes env dir kubectl st)
    as (evs & Htr).
  exists ((OpenTemp :: evs) ++ [CloseTemp]). split; [done|].
  intros _. apply last_snoc.
Qed.

(** X16. [deploy], [undeploy], [install] and [uninstall] never leave the
    temporary file open: on every path on which it was opened, a command that
    cannot be started included, closing it is the last thing they do. *)
Theorem temporary_file_is_always_closed env image ignore_not_found :
  closes_what_it_opens (deploy env image)
  /\ closes_what_it_opens (undeploy env ignore_not_found)
  /\ closes_what_it_opens (install env)
  /\ closes_what_it_opens (uninstall env ignore_not_found).
Proof.
  split; [|split; [|split]].
  2: exact (kustomize_into_kubectl_closes_what_it_opens env _ _).
  2: exact (kustomize_into_kubectl_closes_what_it_opens env _ _).
  2: exact (kustomize_into_kubectl_closes_what_it_opens env _ _).
  intros st. unfold deploy.
  match goal with |- context [ (run env ?args ?kw ≫= _) st ] =>
    destruct (run_frame env args kw st) as (evs1 & Hst1 & Hall1 & _);
    destruct (run env args kw st) as [[[]|e] st1] eqn:Hrun end;
    simpl in Hst1; subst st1.
  - rewrite (bind_ok _ _ _ _ _ Hrun).
    match goal with |- context [ kustomize_into_kubectl env ?d ?k ?s ] =>
      destruct (kustomize_into_kubectl_closes env d k s) as (evs2 & Htr2) end.
    exists (evs1 ++ (OpenTemp :: evs2) ++ [CloseTemp]).
    rewrite Htr2. simpl. rewrite <- !app_assoc. split; [done|].
    intros _.
    change (evs1 ++ OpenTemp :: evs2 ++ [CloseTemp])
      with (evs1 ++ (OpenTemp :: evs2) ++ [CloseTemp]).
    rewrite app_assoc. apply last_snoc.
  - rewrite (bind_raise _ _ _ _ _ Hrun). exists evs1. split; [done|].
    intros Hin. rewrite Forall_forall in Hall1. by apply Hall1 in Hin.
Qed.

(** ** dev/setup.py: the [setup] command *)

(** X17. Without the Go compiler [setup] does nothing at all: it raises
    "The 'go' tool isn't available" from its first step and no other tool is
    looked for, downloaded or installed. *)
Theorem setup_without_go_does_nothing env V st :
  which env (trace st) "go" = None ->
  setup env V st = (Raise (Exception "The 'go' tool isn't available"), st).
Proof.
  intros H. unfold setup. apply bind_raise. unfold install_go.
  rewrite (bind_ok get_trace _ st (trace st) st eq_refl). by rewrite H.
Qed.

Lemma setup_without_go_does_nothing_witness :
  setup linux_amd64_env sample_versions initial
  = (Raise (Exception "The 'go' tool isn't available"), initial).
Proof.
  apply (setup_without_go_does_nothing linux_amd64_env sample_versions initial).
  reflexivity.
Defined.

Lemma present_after_get_trace env name st (k : option string -> M unit) binary :
  which env (trace st) name = Some binary ->
  (tr ← get_trace; k (which env tr name)) st = k (Some binary) st.
Proof.
  intros H. rewrite (bind_ok get_trace _ st (trace st) st eq_refl). by rewrite H.
Qed.

Lemma go_install_present env tool version name binary st :
  binary_name (Str.split "/" tool) = Ok name ->
  which env (trace st) name = Some binary ->
  go_install env tool version st
  = (Ok tt, logged st INFO ("Tool '" +:+ name +:+ "' is already installed at '"
                              +:+ binary +:+ "'")).
Proof.
  intros Hname Hwhich. unfold go_install. rewrite Hname.
  rewrite (bind_ok get_trace _ st (trace st) st eq_refl). by rewrite Hwhich.
Qed.

(** X18. When all ten binaries [setup] looks for are on the search path,
    [setup] returns normally having done nothing but write ten informational
    log records: no process is spawned and no file is touched.  The ten names
    are go, controller-gen, ginkgo, golangci-lint, kustomize (not v5),
    mockgen, operator-sdk, opm, setup-envtest and spectral. *)
Theorem setup_with_everything_installed env V st :
  (forall tr name, name ∈ setup_binaries -> is_Some (which env tr name)) ->
  exists evs,
    setup env V st = (Ok tt, extended st evs)
    /\ length evs = 10%nat
    /\ Forall (fun e => exists msg, e = Log INFO msg) evs.
Proof.
  intros Hall.
  assert (Hgo : forall name, name ∈ setup_binaries -> forall tool version st,
    binary_name (Str.split "/" tool) = Ok name ->
    exists msg, go_install env tool version st = (Ok tt, logged st INFO msg)).
  { intros name Hin tool version s Hname.
    destruct (Hall (trace s) name Hin) as [binary Hb].
    rewrite (go_install_present _ _ _ _ _ _ Hname Hb). by eexists. }
  assert (Hin : forall name, bool_decide (name ∈ setup_binaries) = true ->
    name ∈ setup_binaries) by (intros name; apply bool_decide_eq_true_1).
  unfold setup.
  (* install_go *)
  destruct (Hall (trace st) "go" (Hin "go" eq_refl)) as [b0 H0].
  assert (E0 : install_go env st = (Ok tt, logged st INFO
    ("The 'go' tool is already installed at '" +:+ b0 +:+ "'"))).
  { unfold install_go.
    rewrite (bind_ok get_trace _ st (trace st) st eq_refl). by rewrite H0. }
  rewrite (bind_ok _ _ _ _ _ E0). set (s0 := logged st INFO _).
  (* install_controller_gen *)
  destruct (Hgo "controller-gen" (Hin "controller-gen" eq_refl)
              "sigs.k8s.io/controller-tools/cmd/controller-gen"
              (Some ("v" +:+ CONTROLLER_GEN V)) s0 eq_refl) as [m1 E1].
  unfold install_controller_gen at 1.
  rewrite (bind_ok _ _ _ _ _ E1). set (s1 := logged s0 INFO _).
  (* install_ginkgo *)
  destruct (Hgo "ginkgo" (Hin "ginkgo" eq_refl) "github.com/onsi/ginkgo/v2/ginkgo"
              None s1 eq_refl) as [m2 E2].
  unfold install_ginkgo at 1.
  rewrite (bind_ok _ _ _ _ _ E2). set (s2 := logged s1 INFO _).
  (* install_golangci_lint *)
  destruct (Hall (trace s2) "golangci-lint" (Hin "golangci-lint" eq_refl)) as [b3 H3].
  assert (E3 : install_golangci_lint env V s2 = (Ok tt, logged s2 INFO
    ("Tool 'golangci-lint' is already installed at '" +:+ b3 +:+ "'"))).
  { unfold install_golangci_lint.
    rewrite (bind_ok get_trace _ s2 (trace s2) s2 eq_refl). by rewrite H3. }
  rewrite (bind_ok _ _ _ _ _ E3). set (s3 := logged s2 INFO _).
  (* install_kustomize *)
  destruct (Hgo "kustomize" (Hin "kustomize" eq_refl) "sigs.k8s.io/kustomize/kustomize/v5"
              (Some ("v" +:+ KUSTOMIZE V)) s3 eq_refl) as [m4 E4].
  unfold install_kustomize at 1.
  rewrite (bind_ok _ _ _ _ _ E4). set (s4 := logged s3 INFO _).
  (* install_mockgen *)
  destruct (Hgo "mockgen" (Hin "mockgen" eq_refl) "go.uber.org/mock/mockgen"
              (Some ("v" +:+ MOCKGEN V)) s4 eq_refl) as [m5 E5].
  unfold install_mockgen at 1.
  rewrite (bind_ok _ _ _ _ _ E5). set (s5 := logged s4 INFO _).
  (* install_operator_sdk *)
  destruct (Hall (trace s5) "operator-sdk" (Hin "operator-sdk" eq_refl)) as [b6 H6].
  assert (E6 : install_operator_sdk env V s5 = (Ok tt, logged s5 INFO
    ("Tool 'operator-sdk' is already installed at '" +:+ b6 +:+ "'"))).
  { unfold install_operator_sdk.
    rewrite (bind_ok get_trace _ s5 (trace s5) s5 eq_refl). by rewrite H6. }
  rewrite (bind_ok _ _ _ _ _ E6). set (s6 := logged s5 INFO _).
  (* install_opm *)
  destruct (Hall (trace s6) "opm" (Hin "opm" eq_refl)) as [b7 H7].
  assert (E7 : install_opm env V s6 = (Ok tt, logged s6 INFO
    ("Tool 'opm' is already installed at '" +:+ b7 +:+ "'"))).
  { unfold install_opm.
    rewrite (bind_ok get_trace _ s6 (trace s6) s6 eq_refl). by rewrite H7. }
  rewrite (bind_ok _ _ _ _ _ E7). set (s7 := logged s6 INFO _).
  (* install_setup_envtest *)
  destruct (Hgo "setup-envtest" (Hin "setup-envtest" eq_refl)
              "sigs.k8s.io/controller-runtime/tools/setup-envtest"
              (Some "latest") s7 eq_refl) as [m8 E8].
  unfold install_setup_envtest at 1.
  rewrite (bind_ok _ _ _ _ _ E8). set (s8 := logged s7 INFO _).
  (* install_spectral *)
  destruct (Hall (trace s8) "spectral" (Hin "spectral" eq_refl)) as [b9 H9].
  assert (E9 : install_spectral env V s8 = (Ok tt, logged s8 INFO
    ("Tool 'spectral' is already installed at '" +:+ b9 +:+ "'"))).
  { unfold install_spectral.
    rewrite (bind_ok get_trace _ s8 (trace s8) s8 eq_refl). by rewrite H9. }
  rewrite E9.
  eexists. split.
  { unfold s8, s7, s6, s5, s4, s3, s2, s1, s0, logged, extended.
    cbn [trace go_env_cache]. rewrite <- !app_assoc. reflexivity. }
  split; [reflexivity|].
  repeat (constructor; [by eexists|]). constructor.
Qed.

Lemma setup_with_everything_installed_witness :
  exists evs,
    setup everything_installed_env sample_versions initial
    = (Ok tt, extended initial evs)
    /\ length evs = 10%nat
    /\ Forall (fun e => exists msg, e = Log INFO msg) evs.
Proof.
  apply (setup_with_everything_installed everything_installed_env sample_versions
           initial).
  intros tr name _. by eexists.
Defined.

(** ** dev/test.py *)

(** X19. The test command line always begins with [ginkgo run -r].  With
    [GINKGO_FLAGS] unset that is the whole command; when it is set, the words
    [shlex.split] makes of it are appended; and when [shlex.split] rejects the
    value nothing is run at all. *)
Theorem test_command_line env shlex_split st :
  exists evs,
    (test env shlex_split st).2 = extended st evs
    /\ spawned evs
       = match getenv env "GINKGO_FLAGS" with
         | None => [["ginkgo"; "run"; "-r"]]
         | Some ginkgo_flags =>
             match shlex_split ginkgo_flags with
             | Some flags => [["ginkgo"; "run"; "-r"] ++ flags]
             | None => []
             end
         end.
Proof.
  unfold test. destruct (getenv env "GINKGO_FLAGS") as [ginkgo_flags|].
  - destruct (shlex_split ginkgo_flags) as [flags|].
    + destruct (run_frame env (["ginkgo"; "run"; "-r"] ++ flags) no_kwargs st)
        as (evs & Hst & _ & Hs). by exists evs.
    + exists []. by rewrite extended_nil.
  - destruct (run_frame env ["ginkgo"; "run"; "-r"] no_kwargs st)
      as (evs & Hst & _ & Hs). by exists evs.
Qed.

(** ** dev/setup.py: spectral *)

(** X20. [install_spectral] asks for the release built for x64 when the
    toolchain reports the architecture amd64.  With the tool absent, a
    directory selected and both [go env] queries answered, the only process
    spawned afterwards is [curl], writing to [spectral] in the selected
    directory from the release URL that ends in the platform, a dash and
    x64. *)
Theorem install_spectral_renames_amd64 env V st bin st1 platform st2 st3 :
  which env (trace st) "spectral" = None ->
  select_bin_directory env st = (Ok bin, st1) ->
  go_env env "GOOS" st1 = (Ok platform, st2) ->
  go_env env "GOARCH" st2 = (Ok "amd64", st3) ->
  exists evs,
    trace (install_spectral env V st).2 = trace st3 ++ evs
    /\ spawned evs
       = [["curl"; "--location"; "--silent"; "--fail";
           "--output"; os_path_join bin "spectral";
           "https://github.com"
             +:+ "/stoplightio/spectral/releases/download/v" +:+ SPECTRAL V
             +:+ "/spectral-" +:+ platform +:+ "-" +:+ "x64"]].
Proof.
  intros Hwhich Hbin Hos Harch. unfold install_spectral.
  rewrite (bind_ok get_trace _ st (trace st) st eq_refl). rewrite Hwhich.
  rewrite (bind_ok _ _ _ _ _ Hbin), (bind_ok _ _ _ _ _ Hos),
    (bind_ok _ _ _ _ _ Harch).
  cbv zeta. rewrite bool_decide_eq_true_2 by done. unfold curl.
  match goal with |- context [ (run env ?args ?kw ≫= _) st3 ] =>
    destruct (run_frame env args kw st3) as (evs1 & Hst1 & _ & Hs1);
    destruct (run env args kw st3) as [[[]|e] s] eqn:Hrun end;
    simpl in Hst1; subst s.
  - rewrite (bind_ok _ _ _ _ _ Hrun). unfold add_execution_permission.
    match goal with |- context [ (get_trace ≫= ?k) ?s ] =>
      rewrite (bind_ok get_trace k s (trace s) s eq_refl) end.
    destruct (st_mode env _ _) as [mode|].
    + eexists (evs1 ++ [_]). unfold emit, extended. cbn [snd trace].
      rewrite <- app_assoc. split; [reflexivity|].
      by rewrite spawned_app, Hs1.
    + exists evs1. split; [done|]. done.
  - rewrite (bind_raise _ _ _ _ _ Hrun). by exists evs1.
Qed.

Lemma install_spectral_renames_amd64_witness :
  exists evs,
    trace (install_spectral linux_amd64_env sample_versions initial).2
    = trace (go_env linux_amd64_env "GOARCH"
               (go_env linux_amd64_env "GOOS" initial).2).2 ++ evs
    /\ spawned evs
       = [["curl"; "--location"; "--silent"; "--fail";
           "--output"; os_path_join "/work/oran-o2ims/bin" "spectral";
           "https://github.com"
             +:+ "/stoplightio/spectral/releases/download/v"
             +:+ SPECTRAL sample_versions
             +:+ "/spectral-" +:+ "linux" +:+ "-" +:+ "x64"]].
Proof.
  apply (install_spectral_renames_amd64 linux_amd64_env sample_versions initial
           "/work/oran-o2ims/bin" initial "linux"
           (go_env linux_amd64_env "GOOS" initial).2).
  - reflexivity.
  - by vm_compute.
  - by vm_compute.
  - by vm_compute.
Defined.

(** ** dev/generate.py and dev.py *)

Lemma spawned_run_events args kw code : spawned (run_events args kw code) = [args].
Proof. reflexivity. Qed.

Ltac run_all Hstart :=
  repeat match goal with
  | |- context [ (run ?env ?args ?kw ≫= ?f) ?s ] =>
      let code := fresh "code" in
      let H := fresh "H" in
      destruct (run_always_returns env args kw s Hstart) as [code H];
      rewrite (bind_ok (run env args kw) f s tt _ H);
      clear H
  end;
  try match goal with
  | |- context [ run ?env ?args ?kw ?s ] =>
      let code := fresh "code" in
      let H := fresh "H" in
      destruct (run_always_returns env args kw s Hstart) as [code H];
      rewrite H; clear H
  end;
  rewrite ?extended_extended.

(** X21. [generate] without a subcommand is the four subcommands one after
    the other, with the default image for the bundle; with a subcommand it
    runs the commands of that subcommand alone.  This holds, and the call
    returns normally, for every combination of exit statuses, as long as each
    program can be started. *)
Theorem generate_is_its_subcommands env V shlex_split c st :
  always_starts env ->
  exists evs,
    cli env V shlex_split (Generate c) st = (Ok tt, extended st evs)
    /\ spawned evs
       = match c with
         | None =>
             steps_of Mocks ++ steps_of Manifests ++ steps_of DeepCopy
               ++ steps_of (Bundle (IMAGE_REPOSITORY +:+ ":" +:+ IMAGE_TAG))
         | Some c => steps_of c
         end.
Proof.
  intros Hstart. unfold cli.
  destruct c as [[| | |image]|];
    unfold generate, mocks, manifests, deep_copy, bundle;
    try match goal with
    | |- context [ (mret tt ≫= ?k) st ] =>
        rewrite (bind_ok (mret tt) k st tt st eq_refl)
    end;
    run_all Hstart;
    (eexists; split; [reflexivity|]); reflexivity.
Qed.

Lemma generate_is_its_subcommands_witness :
  exists evs,
    cli failing_programs_env sample_versions split_words (Generate (Some Mocks))
      initial = (Ok tt, extended initial evs)
    /\ spawned evs = steps_of Mocks.
Proof.
  apply (generate_is_its_subcommands failing_programs_env sample_versions
           split_words (Some Mocks) initial).
  intros tr args kw capture. by exists 3, EmptyString.
Defined.

(** ** dev.py: the exit status *)

Lemma returns_normally_run env args kw :
  always_starts env -> returns_normally (run env args kw).
Proof.
  intros Hstart st. destruct (run_always_returns env args kw st Hstart) as [code H].
  by rewrite H.
Qed.

Lemma returns_normally_emit e : returns_normally (emit e).
Proof. by intros st. Qed.

Lemma returns_normally_bind (m : M unit) (f : unit -> M unit) :
  returns_normally m -> (forall a, returns_normally (f a)) ->
  returns_normally (m ≫= f).
Proof.
  intros Hm Hf st. specialize (Hm st). unfold mbind, M_bind.
  destruct (m st) as [[a|e] st1]; simpl in Hm; [apply Hf|done].
Qed.

Lemma returns_normally_finally (body cleanup : M unit) :
  returns_normally body -> returns_normally cleanup ->
  returns_normally (finally body cleanup).
Proof.
  intros Hb Hc st. specialize (Hb st). unfold finally.
  destruct (body st) as [r st1]; simpl in Hb. specialize (Hc st1).
  destruct (cleanup st1) as [[[]|e] st2]; simpl in Hc; [done|done].
Qed.

Lemma returns_normally_ret : returns_normally (mret tt).
Proof. by intros st. Qed.

(** X22. The exit status says nothing about the programs that were run.  For
    every command other than [setup] and [test], as long as each program can
    be started the process ends with status 0, whatever statuses the programs
    exit with. *)
Theorem exit_status_ignores_programs env V shlex_split i :
  always_starts env ->
  only_runs_programs i ->
  main env V shlex_split i = 0.
Proof.
  intros Hstart Hi. unfold main.
  assert (H : returns_normally (cli env V shlex_split i)).
  { pose proof (fun args kw => returns_normally_run env args kw Hstart) as Hrun.
    destruct i as [[| |]|[[| | |]|]| | | | |[|]| |];
      try (exfalso; exact Hi);
      unfold cli, build_binary, build_image, build_bundle_image, generate, mocks,
        manifests, deep_copy, bundle, deploy, undeploy, install, uninstall,
        kustomize_into_kubectl, with_temporary_file, push_image,
        push_bundle_image;
      set (r := run env) in *; clearbody r;
      repeat first
        [ apply Hrun
        | apply returns_normally_emit
        | apply returns_normally_ret
        | apply returns_normally_finally
        | apply returns_normally_bind; [|intros _]
        | intros ?; apply Hrun ]. }
  by rewrite (H initial).
Qed.

Lemma exit_status_ignores_programs_witness :
  main failing_programs_env sample_versions split_words (Deploy "quay.io/x/y:z") = 0.
Proof.
  apply (exit_status_ignores_programs failing_programs_env sample_versions
           split_words (Deploy "quay.io/x/y:z")).
  - intros tr args kw capture. by exists 3, EmptyString.
  - exact I.
Defined.
